(** * DRBot: a shallow embedding of [drbot.py]

    [drbot.py] drives ArcGIS Data Reviewer: it resolves a list of rule
    files, runs each of them against a database, summarises the findings
    into an in-memory log ([TmpLog]) and reports that log to a file and by
    email.

    The embedding follows the Python 2 reading of the script (byte strings,
    [exc[0]] on environment errors, [e.message]).  Strings are [string],
    Python integers are [Z], and everything the script asks of its
    surroundings (arcpy, the file system, the mail relay, the clock) is
    answered by a [World] record, so that every function below is a total,
    executable Rocq function. *)

From Stdlib Require Import String Ascii List ZArith Lia Bool Arith.
From Stdlib Require Import DecimalString Sorted OrderedTypeEx.
Import ListNotations.

Local Open Scope list_scope.
Local Open Scope string_scope.

(** ** Python string primitives used by the script *)

Module Py.

(** [str(n)] for a non-negative count and for an integer. *)
Definition str_nat (n : nat) : string := NilZero.string_of_uint (Nat.to_uint n).
Definition str_int (z : Z) : string := NilZero.string_of_int (Z.to_int z).

(** [s[:n]] *)
Definition slice_to (n : nat) (s : string) : string := substring 0 n s.

(** [s[n:]] *)
Fixpoint slice_from (n : nat) (s : string) : string :=
  match n, s with
  | O, _ => s
  | S n', String _ s' => slice_from n' s'
  | S _, EmptyString => EmptyString
  end.

(** [sub in s] *)
Fixpoint contains (sub s : string) : bool :=
  if prefix sub s then true
  else match s with
       | EmptyString => false
       | String _ s' => contains sub s'
       end.

(** [s.split(sep)] for a one-character separator. *)
Fixpoint split_aux (sep : ascii) (cur : string) (s : string) : list string :=
  match s with
  | EmptyString => [cur]
  | String c s' =>
      if Ascii.eqb c sep then cur :: split_aux sep EmptyString s'
      else split_aux sep (cur ++ String c EmptyString) s'
  end.

Definition split (sep : ascii) (s : string) : list string :=
  split_aux sep EmptyString s.

(** [sep.join(l)] *)
Definition join (sep : string) (l : list string) : string := String.concat sep l.

(** [s.splitlines()] on a byte string: the line boundaries are LF, CR and
    CRLF, and no empty last line is produced. *)
Definition LF : ascii := ascii_of_nat 10.
Definition CR : ascii := ascii_of_nat 13.
Definition BACKSLASH : ascii := ascii_of_nat 92.

Fixpoint splitlines_aux (after_cr : bool) (cur : string) (s : string) : list string :=
  match s with
  | EmptyString => if String.eqb cur EmptyString then [] else [cur]
  | String c s' =>
      if Ascii.eqb c LF then
        if after_cr then splitlines_aux false cur s'
        else cur :: splitlines_aux false EmptyString s'
      else if Ascii.eqb c CR then cur :: splitlines_aux true EmptyString s'
      else splitlines_aux false (cur ++ String c EmptyString) s'
  end.

Definition splitlines (s : string) : list string :=
  splitlines_aux false EmptyString s.

(** [s.rfind(c)]: the highest index of [c] in [s], or [-1]. *)
Fixpoint rfind_aux (c : ascii) (i : Z) (best : Z) (s : string) : Z :=
  match s with
  | EmptyString => best
  | String d s' => rfind_aux c (i + 1) (if Ascii.eqb d c then i else best) s'
  end.

Definition rfind (c : ascii) (s : string) : Z := rfind_aux c 0 (-1) s.

(** [int(s)] on a string of decimal digits. *)
Definition digit_val (c : ascii) : Z := Z.of_nat (nat_of_ascii c) - 48.

Fixpoint int_aux (acc : Z) (s : string) : Z :=
  match s with
  | EmptyString => acc
  | String c s' => int_aux (10 * acc + digit_val c) s'
  end.

Definition int (s : string) : Z := int_aux 0 s.

(** [s[:-n]] *)
Definition drop_last (n : nat) (s : string) : string :=
  substring 0 (String.length s - n) s.

(** [l[-1]] on a non-empty list. *)
Definition last_item (l : list string) : string := List.last l EmptyString.

End Py.

(** ** Exceptions *)

(** The exceptions the script distinguishes.  [IOError] and [OSError] (with
    [WindowsError]) carry an error number and its text, which are their
    [exc[0]] and [exc[1]]; every other exception carries one text, which is
    its [exc[0]].  All of them are instances of [Exception]. *)
Inductive exn : Type :=
| ExecuteError (message : string)
| IOError (errno : Z) (strerror : string)
| OSError (errno : Z) (strerror : string)
| ShutilError (errors : string)
| IndexError (what : string)
| UnboundLocalError (name : string)
| OtherError (what : string).

(** What a Python call does: it returns a value or raises. *)
Inductive outcome (A : Type) : Type :=
| Returns (a : A)
| Raises (e : exn).
Arguments Returns {A} a.
Arguments Raises {A} e.

(** ** [parse_arc_error] *)

Module Regex.

(** The pattern is the text "ERROR ", one or more zeros, a group made of a
    digit from 1 to 9 and any number of digits, and a colon.  These are its
    character classes. *)
Definition is_zero (c : ascii) : bool := Ascii.eqb c "0".
Definition is_digit (c : ascii) : bool :=
  (48 <=? nat_of_ascii c)%nat && (nat_of_ascii c <=? 57)%nat.
Definition is_nonzero_digit (c : ascii) : bool :=
  (49 <=? nat_of_ascii c)%nat && (nat_of_ascii c <=? 57)%nat.

(** The longest prefix of [s] whose characters satisfy [p], and the rest. *)
Fixpoint span (p : ascii -> bool) (s : string) : string * string :=
  match s with
  | EmptyString => (EmptyString, EmptyString)
  | String c s' =>
      if p c then let (a, b) := span p s' in (String c a, b)
      else (EmptyString, s)
  end.

(** [s] without the prefix [pre], when it has it. *)
Fixpoint strip_prefix (pre s : string) : option string :=
  match pre, s with
  | EmptyString, _ => Some s
  | String a pre', String b s' =>
      if Ascii.eqb a b then strip_prefix pre' s' else None
  | String _ _, EmptyString => None
  end.

(** The zeros, the group and the colon at the head of [s]; the result is
    the group.  Both
    repetitions are greedy, and what follows each of them cannot be matched
    by the repeated class, so the longest repetition is the only one that
    can succeed. *)
Definition match_code (s : string) : option string :=
  let (zeros, r1) := span is_zero s in
  match zeros, r1 with
  | String _ _, String c r2 =>
      if is_nonzero_digit c then
        let (ds, r3) := span is_digit r2 in
        match r3 with
        | String ":" _ => Some (String c ds)
        | _ => None
        end
      else None
  | _, _ => None
  end.

Definition match_here (s : string) : option string :=
  match strip_prefix "ERROR " s with
  | Some r => match_code r
  | None => None
  end.

(** [re.search]: the match at the leftmost position that has one. *)
Fixpoint search (s : string) : option string :=
  match match_here s with
  | Some g => Some g
  | None =>
      match s with
      | EmptyString => None
      | String _ s' => search s'
      end
  end.

End Regex.

(** [parse_arc_error(e)], called on an [arcpy.ExecuteError]; [e.message] of
    any other exception is not used by the script and is taken empty. *)
Definition exn_message (e : exn) : string :=
  match e with
  | ExecuteError m => m
  | _ => EmptyString
  end.

Definition parse_arc_error (e : exn) : outcome Z :=
  match Regex.search (exn_message e) with
  | None => Raises e
  | Some g => Returns (Py.int g)
  end.

(** ** The surroundings of the script *)

(** One row of [REVTABLEMAIN], in the order of [fields] in
    [summarise_dr_output]. *)
Record finding : Type := mkFinding {
  CHECKTITLE : string;
  ORIGINTABLE : string;
  SUBTYPE : string;
  OBJECTID : Z;
  NOTES : string
}.

(** The calls the script makes to its surroundings, as they are recorded in
    the state, oldest first. *)
Inductive event : Type :=
| AddMessage (s : string)
| Print (s : string)
| CheckOutExtension (name : string)
| CheckInExtension (name : string)
| Rmtree (path : string)
| Copytree (src dst : string)
| CreateFileGDB (folder name : string)
| EnableDataReviewer (path : string)
| CreateReviewerSession (ws name : string) (template : option string)
| ExecuteReviewerBatchJob (ws session rulefile db : string)
| OpenRead (path : string)
| WriteFile (path : string) (content : list string)
| SmtpConnect (server : string)
| SmtpSendmail (sender : string) (rcpts : list string) (body : string)
| SmtpQuit.

(** The answers of the surroundings.  [None] in a result of type
    [option exn] means that the call succeeded. *)
Record World : Type := mkWorld {
  (* os.path *)
  os_path_join : string -> string -> string;
  os_path_dirname : string -> string;
  os_path_basename : string -> string;
  (* the interpreter *)
  script_file : string;                       (* __file__ *)
  start_time : string;                        (* str(dt.now()) on entry *)
  run_duration : string;                      (* str(dt.now() - t0) *)
  str_exn : exn -> string;                    (* str(exc) *)
  repr_exn : exn -> string;                   (* repr(exc) *)
  format_exc : exn -> string;                 (* traceback.format_exc() *)
  (* files *)
  read_file : string -> outcome string;       (* open(f, 'r').read() *)
  open_write : string -> option exn;          (* open(f, 'w') and the writes *)
  rmtree : string -> option exn;
  copytree : string -> string -> option exn;
  (* arcpy *)
  CreateFileGDB_management : string -> string -> option exn;
  EnableDataReviewer_Reviewer : string -> option exn;
  CreateReviewerSession_Reviewer : string -> string -> option string -> option exn;
  AddFieldDelimiters : string -> string -> string;
  SearchCursor : string -> string -> outcome (list Z);
  ExecuteReviewerBatchJob_Reviewer : string -> string -> string -> string -> option exn;
  da_SearchCursor : string -> string -> outcome (list finding);
  (* smtplib *)
  SMTP : string -> option exn;
  sendmail : string -> list string -> string -> option exn;
  smtp_quit : option exn
}.

(** What a run changes: the attributes of the [DRBot] object that are
    assigned to, the directories that exist, and the calls made so far. *)
Record state : Type := mkState {
  self_db : string;
  tmp_log_list : list string;
  dirs : list string;
  events : list event
}.

(** The attributes of the [DRBot] object that are only read. *)
Record DRBot : Type := mkDRBot {
  dr_gdb_location : string;
  template_dr_gdb : string;
  coord_sys : Z
}.

(** ** A state and exception monad *)

Definition M (A : Type) : Type := state -> outcome A * state.

Definition ret {A} (a : A) : M A := fun st => (Returns a, st).

Definition bind {A B} (c : M A) (k : A -> M B) : M B :=
  fun st =>
    match c st with
    | (Returns a, st') => k a st'
    | (Raises e, st') => (Raises e, st')
    end.

Definition raise {A} (e : exn) : M A := fun st => (Raises e, st).

(** [try: c  except <the exceptions h accepts> as exc: h exc]; an exception
    for which [h] gives [None] is not caught. *)
Definition try_except {A} (c : M A) (h : exn -> option (M A)) : M A :=
  fun st =>
    match c st with
    | (Returns a, st') => (Returns a, st')
    | (Raises e, st') =>
        match h e with
        | Some k => k st'
        | None => (Raises e, st')
        end
    end.

Declare Scope monad_scope.
Delimit Scope monad_scope with monad.
Notation "x <- c ;; k" := (bind c (fun x => k))
  (at level 61, c at next level, right associativity) : monad_scope.
Notation "c ;; k" := (bind c (fun _ => k))
  (at level 61, right associativity) : monad_scope.
Local Open Scope monad_scope.

Definition lift_outcome {A} (o : outcome A) : M A := fun st => (o, st).

(** The state after further calls, and after further log lines. *)
Definition with_events (st : state) (evs : list event) : state :=
  mkState (self_db st) (tmp_log_list st) (dirs st) (events st ++ evs)%list.

Definition with_log (st : state) (lines : list string) : state :=
  mkState (self_db st) (tmp_log_list st ++ lines)%list (dirs st) (events st).

Definition emit (ev : event) : M unit :=
  fun st => (Returns tt, with_events st [ev]).

(** A call that may fail: the call is recorded, then it returns or raises. *)
Definition call (ev : event) (r : option exn) : M unit :=
  emit ev ;;
  match r with
  | None => ret tt
  | Some e => raise e
  end.

Definition set_msg (s : string) : M unit := emit (AddMessage s).
Definition print (s : string) : M unit := emit (Print s).

Definition get_db : M string := fun st => (Returns (self_db st), st).
Definition set_db (d : string) : M unit :=
  fun st => (Returns tt, mkState d (tmp_log_list st) (dirs st) (events st)).

Definition isdir (p : string) : M bool :=
  fun st => (Returns (existsb (String.eqb p) (dirs st)), st).

Definition add_dir (p : string) : M unit :=
  fun st => (Returns tt,
             mkState (self_db st) (tmp_log_list st) (p :: dirs st) (events st)).

Definition remove_dir (p : string) : M unit :=
  fun st => (Returns tt,
             mkState (self_db st) (tmp_log_list st)
                     (filter (fun d => negb (String.eqb p d)) (dirs st)) (events st)).

(** [exc[0] == n] and [exc[1]] in an [except Exception as exc] handler. *)
Definition exc_item0_is (e : exn) (n : Z) : bool :=
  match e with
  | IOError k _ | OSError k _ => Z.eqb k n
  | _ => false
  end.

Definition exc_item1 (e : exn) : string :=
  match e with
  | IOError _ t | OSError _ t => t
  | _ => EmptyString
  end.

(** The handler of [except Exception]. *)
Definition any_exception {A} (h : exn -> M A) : exn -> option (M A) :=
  fun e => Some (h e).

(** ** Settings *)

Definition found_marker : string := "Found".
Definition email_server : string := "smtp.organisation.net".
Definition email_sender : string := "Batch Script <batch_user@organisation.net>".

Definition NL : string := String Py.LF EmptyString.

(** ** [TmpLog] *)

Module TmpLog.

Definition log (msg : string) : M unit :=
  fun st => (Returns tt, with_log st [msg]).

Definition count_lines_with (s : string) (lines : list string) : nat :=
  List.length (filter (Py.contains s) lines).

Definition contains_line_with (s : string) (lines : list string) : bool :=
  existsb (Py.contains s) lines.

Definition get_lines : M (list string) :=
  fun st => (Returns (tmp_log_list st), st).

Definition write_to_file (W : World) (filename : string) : M unit :=
  lines <- get_lines ;;
  call (WriteFile filename (map (fun logline => logline ++ NL) lines))
       (open_write W filename).

(** The text handed to [sendmail]. *)
Definition email_body (sender : string) (email_lst : list string)
    (subject count_flag : string) (lines : list string) : string :=
  let message := String.concat EmptyString (map (fun logline => logline ++ NL) lines) in
  let issue_count := count_lines_with count_flag lines in
  let subject :=
    if negb (String.eqb count_flag EmptyString)
    then subject ++ " - " ++ Py.str_nat issue_count ++ " issues"
    else subject in
  "From: " ++ sender ++ NL ++ "To: " ++ Py.join ", " email_lst ++ NL ++
  "Subject: " ++ subject ++ NL ++ NL ++ message ++ NL ++ "        ".

Definition send_email (W : World) (sender : string) (email_lst : list string)
    (subject count_flag : string) : M unit :=
  lines <- get_lines ;;
  let body := email_body sender email_lst subject count_flag lines in
  try_except
    (call (SmtpConnect email_server) (SMTP W email_server) ;;
     call (SmtpSendmail sender email_lst body) (sendmail W sender email_lst body) ;;
     call SmtpQuit (smtp_quit W))
    (any_exception (fun e =>
       print "Couldn't send email." ;;
       print (repr_exn W e))).

End TmpLog.

(** ** [encode_if_unicode] *)

(** Text fields are held as byte strings from the start (a unicode value as
    its UTF-8 encoding), and [str] of a byte string is that string. *)
Definition encode_if_unicode (strval : string) : string := strval.

(** ** [DRBot] *)

Section DRBotMethods.

Variable W : World.
Variable self : DRBot.

(** [fix_path(path, basepath)].  [path[1]] is read first, and [path[0]] only
    when [path[1]] is not a colon. *)
Definition fix_path (path basepath : string) : outcome string :=
  match String.get 1 path with
  | None => Raises (IndexError "string index out of range")
  | Some c1 =>
      if negb (Ascii.eqb c1 ":") then
        match String.get 0 path with
        | None => Raises (IndexError "string index out of range")
        | Some c0 =>
            if negb (Ascii.eqb c0 "/") then Returns (os_path_join W basepath path)
            else Returns path
        end
      else Returns path
  end.

(** The list comprehension of [runDR]:
    [[fix_path(lin, base) for lin in lines if lin[:1] != "#"]]. *)
Fixpoint resolve_lines (base : string) (lines : list string) : outcome (list string) :=
  match lines with
  | [] => Returns []
  | lin :: rest =>
      if negb (String.eqb (Py.slice_to 1 lin) "#") then
        match fix_path lin base with
        | Raises e => Raises e
        | Returns p =>
            match resolve_lines base rest with
            | Raises e => Raises e
            | Returns ps => Returns (p :: ps)
            end
        end
      else resolve_lines base rest
  end.

(** What the rule-loading step of [runDR] leaves behind: [return 1], or the
    variable [rulefiles], which is unbound ([None]) after a read error other
    than a missing file. *)
Inductive loaded : Type :=
| ReturnEarly (v : Z)
| Rulefiles (rulefiles : option (list string)).

Definition load_rulefiles (rules : string) : M loaded :=
  if Py.contains ".txt" rules then
    try_except
      (emit (OpenRead rules) ;;
       content <- lift_outcome (read_file W rules) ;;
       rulefiles <- lift_outcome
                      (resolve_lines (os_path_dirname W rules) (Py.splitlines content)) ;;
       ret (Rulefiles (Some rulefiles)))
      (fun exc =>
         match exc with
         | IOError _ _ =>
             Some (set_msg ("ERROR reading rules " ++ rules ++ ".") ;;
                   if exc_item0_is exc 2 then
                     set_msg (exc_item1 exc) ;;
                     ret (ReturnEarly 1)
                   else
                     set_msg (format_exc W exc) ;;
                     ret (Rulefiles None))
         | _ => None
         end)
  else ret (Rulefiles (Some [rules])).

(** [make_dr_gdb], with its two [try] statements named. *)
Definition copy_template : M unit :=
  try_except
    (call (Copytree (template_dr_gdb self) (dr_gdb_location self))
          (copytree W (template_dr_gdb self) (dr_gdb_location self)) ;;
     add_dir (dr_gdb_location self))
    (fun exc =>
       match exc with
       | ShutilError errors =>
           Some (set_msg "  Couldn't copy DR gdb template (shutil.Error)." ;;
                 set_msg ("  errors: " ++ errors))
       | _ =>
           Some (set_msg "  Couldn't copy DR gdb template (non-shutil.Error)." ;;
                 if exc_item0_is exc 183 then set_msg ("  " ++ exc_item1 exc)
                 else set_msg ("  Exception while copying template gdb: " ++ str_exn W exc))
       end).

Definition create_empty_gdb : M (option Z) :=
  try_except
    (call (CreateFileGDB (os_path_dirname W (dr_gdb_location self))
                         (os_path_basename W (dr_gdb_location self)))
          (CreateFileGDB_management W (os_path_dirname W (dr_gdb_location self))
                                      (os_path_basename W (dr_gdb_location self))) ;;
     add_dir (dr_gdb_location self) ;;
     call (EnableDataReviewer (dr_gdb_location self))
          (EnableDataReviewer_Reviewer W (dr_gdb_location self)) ;;
     ret None)
    (any_exception (fun _ =>
       set_msg "Couldn't create empty gdb for DR workspace." ;;
       ret (Some 1%Z))).

Definition make_dr_gdb : M (option Z) :=
  set_msg "Making DR gdb..." ;;
  has_template <- isdir (template_dr_gdb self) ;;
  (if has_template then copy_template else ret tt) ;;
  exists_now <- isdir (dr_gdb_location self) ;;
  if negb exists_now then
    set_msg "Creating empty fgdb for DR..." ;;
    create_empty_gdb
  else ret None.

(** [clean_dr_ws].  The call of [make_dr_gdb] belongs to the branch taken
    when the workspace directory exists. *)
Inductive after_delete : Type :=
| Proceed
| Return1.

Definition clean_dr_ws : M (option Z) :=
  set_msg "Cleaning up DR gdb..." ;;
  present <- isdir (dr_gdb_location self) ;;
  if present then
    r <- try_except
           (set_msg ("Deleting DR gdb " ++ dr_gdb_location self ++ "...") ;;
            call (Rmtree (dr_gdb_location self)) (rmtree W (dr_gdb_location self)) ;;
            remove_dir (dr_gdb_location self) ;;
            ret Proceed)
           (any_exception (fun exc =>
              set_msg "Failed to delete existing DR gdb." ;;
              if exc_item0_is exc 32 then
                set_msg ("  " ++ exc_item1 exc) ;;
                ret Return1
              else
                set_msg ("Exception during DR workspace cleanup " ++ str_exn W exc) ;;
                set_msg (format_exc W exc) ;;
                ret Proceed)) ;;
    match r with
    | Return1 => ret (Some 1%Z)
    | Proceed => make_dr_gdb ;; ret None
    end
  else ret None.

(** [prep_dr_ws] *)
Definition prep_dr_ws (session_name : string) : M unit :=
  set_msg "Preparing Data Reviewer Session..." ;;
  present <- isdir (dr_gdb_location self) ;;
  (if negb present then make_dr_gdb ;; ret tt else ret tt) ;;
  set_msg ("    Database: " ++ dr_gdb_location self) ;;
  try_except
    (call (CreateReviewerSession (dr_gdb_location self) session_name (Some "Session 1 : empty"))
          (CreateReviewerSession_Reviewer W (dr_gdb_location self) session_name
                                          (Some "Session 1 : empty")))
    (fun exc =>
       match exc with
       | ExecuteError _ =>
           Some (set_msg "  Couldn't create reviewer session from template, ignoring template." ;;
                 try_except
                   (call (CreateReviewerSession (dr_gdb_location self) session_name None)
                         (CreateReviewerSession_Reviewer W (dr_gdb_location self)
                                                         session_name None))
                   (any_exception (fun exc2 =>
                      set_msg "Problem while creating empty reviewer session: " ;;
                      set_msg (format_exc W exc2))))
       | _ => None
       end).

(** [summarise_dr_output]: the two lines it writes. *)
Definition total_line (check_count : nat) (prev_check : string) : string :=
  "Total " ++ Py.str_nat check_count ++ " DRBot hits for " ++ prev_check ++ NL.

Definition fcs_str (fcs : string) : string :=
  if (0 <? String.length fcs)%nat then ", " ++ Py.slice_to 6 fcs else EmptyString.

Definition found_line (row : finding) : string :=
  found_marker ++ " " ++ ORIGINTABLE row ++ fcs_str (SUBTYPE row) ++
  ", OBJECTID=" ++ Py.str_int (OBJECTID row) ++ ": " ++
  encode_if_unicode (CHECKTITLE row) ++ " (" ++ encode_if_unicode (NOTES row) ++ ")".

(** The variables of the loop over the rows, and its body.  [lg] is
    [tmp_log_list]. *)
Record summary_vars : Type := mkVars {
  check_count : nat;
  prev_check : string;
  lg : list string
}.

Definition summarise_row (v : summary_vars) (row : finding) : summary_vars :=
  let title := CHECKTITLE row in
  let v1 :=
    if negb (String.eqb title (prev_check v)) then
      mkVars 0 title
             (if negb (String.eqb (prev_check v) EmptyString)
              then (lg v ++ [total_line (check_count v) (prev_check v)])%list
              else lg v)
    else v in
  mkVars (S (check_count v1)) (prev_check v1) (lg v1 ++ [found_line row])%list.

(** The loop, the last total and the closing test, on the log. *)
Definition summarise_log (rows : list finding) (log0 : list string) : list string :=
  let v := fold_left summarise_row rows (mkVars 0 EmptyString log0) in
  let log1 :=
    if negb (String.eqb (prev_check v) EmptyString)
    then (lg v ++ [total_line (check_count v) (prev_check v)])%list
    else lg v in
  if (TmpLog.count_lines_with found_marker log1 =? 0)%nat
  then (log1 ++ ["No errors found."])%list
  else log1.

Definition set_log (l : list string) : M unit :=
  fun st => (Returns tt, mkState (self_db st) l (dirs st) (events st)).

Definition summarise_dr_output (sess_obj_id : Z) : M unit :=
  rows <- lift_outcome
            (da_SearchCursor W (dr_gdb_location self ++ "/REVTABLEMAIN")
                             ("SESSIONID=" ++ Py.str_int sess_obj_id)) ;;
  log0 <- TmpLog.get_lines ;;
  set_log (summarise_log rows log0).

(** The loop of [runDR] over the rule files. *)
Fixpoint run_rulefiles (sessionidstr : string) (rulefiles : list string) : M unit :=
  match rulefiles with
  | [] => ret tt
  | rulefile :: rest =>
      set_msg ("  Checking file: " ++ rulefile) ;;
      try_except
        (print ("Rules: " ++ rulefile) ;;
         db <- get_db ;;
         call (ExecuteReviewerBatchJob (dr_gdb_location self) sessionidstr rulefile db)
              (ExecuteReviewerBatchJob_Reviewer W (dr_gdb_location self) sessionidstr
                                                rulefile db))
        (fun ee =>
           match ee with
           | ExecuteError _ =>
               Some (err <- lift_outcome (parse_arc_error ee) ;;
                     if (err =? 732)%Z then
                       TmpLog.log ("Found execution error: File " ++ rulefile ++ " not found.")
                     else raise ee)
           | _ => None
           end) ;;
      run_rulefiles sessionidstr rest
  end.

(** The body of the [try] of [runDR]. *)
Definition checks (rulefiles : option (list string)) (session_name : string) : M unit :=
  prep_dr_ws session_name ;;
  let table := dr_gdb_location self ++ "\GDB_REVSESSIONTABLE" in
  let sessionnamefld := AddFieldDelimiters W table "SESSIONNAME" in
  let session_where := sessionnamefld ++ " = '" ++ session_name ++ "'" in
  cur <- lift_outcome (SearchCursor W table session_where) ;;
  (* for row in cur: sess_obj_id = row.getValue("SESSIONID") *)
  let sess_obj_id := List.last (map Some cur) None in
  match sess_obj_id with
  | None => raise (UnboundLocalError "sess_obj_id")
  | Some sess_obj_id =>
      let sessionidstr := "Session " ++ Py.str_int sess_obj_id ++ " : " ++ session_name in
      set_msg ("  Created session:" ++ NL ++ "    " ++ sessionidstr) ;;
      db <- get_db ;;
      TmpLog.log ("Checking " ++ db) ;;
      TmpLog.log ("Errors will be written to " ++ dr_gdb_location self) ;;
      match rulefiles with
      | None => raise (UnboundLocalError "rulefiles")
      | Some rulefiles =>
          run_rulefiles sessionidstr rulefiles ;;
          set_msg ("Checks completed, summarising output." ++ NL ++ NL) ;;
          summarise_dr_output sess_obj_id
      end
  end.

(** [runDR] *)
Definition runDR (rules sess_keywd : string) : M (option Z) :=
  TmpLog.log ("Start time: " ++ start_time W) ;;
  emit (CheckOutExtension "datareviewer") ;;
  let session_name := sess_keywd in
  set_msg ("Loading rule file(s) from " ++ rules ++ "...") ;;
  l <- load_rulefiles rules ;;
  match l with
  | ReturnEarly v => ret (Some v)
  | Rulefiles rulefiles =>
      try_except
        (checks rulefiles session_name)
        (any_exception (fun exc =>
           set_msg ("Exception during DRBot " ++ str_exn W exc) ;;
           set_msg (format_exc W exc))) ;;
      emit (CheckInExtension "datareviewer") ;;
      TmpLog.log "Done" ;;
      TmpLog.log (NL ++ "Total " ++ script_file W ++ " duration (h:mm:ss.dd): " ++
                  Py.drop_last 3 (run_duration W)) ;;
      ret None
  end.

(** [report_output].  [mails] is a list of addresses; the empty string that
    the script also uses for no addresses is the empty list. *)
Definition report_output (logfile : string) (mails : list string) (subj : string)
    (always_send_mail : bool) : M unit :=
  let mails :=
    match mails with
    | [m] => if String.eqb m EmptyString then [] else mails
    | _ => mails
    end in
  (if (0 <? String.length logfile)%nat then TmpLog.write_to_file W logfile else ret tt) ;;
  lines <- TmpLog.get_lines ;;
  let always_send_mail :=
    if negb always_send_mail && (0 <? List.length mails)%nat then
      if TmpLog.contains_line_with found_marker lines then true else always_send_mail
    else always_send_mail in
  if always_send_mail && (0 <? List.length mails)%nat then
    TmpLog.send_email W email_sender mails ("DRBot Run, " ++ subj) found_marker
  else ret tt.

(** [run_from_sysargs]; [argv] is [sys.argv]. *)
Definition run_from_sysargs (argv : list string) (def_rules : string) : M unit :=
  let arg := fun i => nth i argv EmptyString in
  if (List.length argv =? 2)%nat && String.eqb (arg 1%nat) "clean" then
    clean_dr_ws ;;
    TmpLog.log "Cleanup completed."
  else
    let rules := if (1 <? List.length argv)%nat then arg 1%nat else def_rules in
    let logfile := if (2 <? List.length argv)%nat then arg 2%nat else EmptyString in
    (if (3 <? List.length argv)%nat then set_db (arg 3%nat) else ret tt) ;;
    let mails := if (4 <? List.length argv)%nat then Py.split "," (arg 4%nat) else [] in
    let sess_name := Py.slice_from (Z.to_nat (1 + Py.rfind Py.BACKSLASH logfile)) logfile in
    runDR rules sess_name ;;
    report_output logfile mails (Py.last_item (Py.split Py.BACKSLASH rules)) true.

End DRBotMethods.

(** ** The script's entry point *)

Definition test_drb : DRBot := mkDRBot "c:\temp\drbot_test.gdb" EmptyString 4326.

Definition initial_state (existing_dirs : list string) : state :=
  mkState "C:\arcgis\test\DataReviewer\testdata.gdb" [] existing_dirs [].

Definition main (W : World) (argv : list string) : M unit :=
  let log_loc := "log.txt" in
  let rule_loc := "rules\sample1.rbj" in
  if (1 <? List.length argv)%nat then run_from_sysargs W test_drb argv rule_loc
  else
    let sess_name := Py.slice_from (Z.to_nat (1 + Py.rfind Py.BACKSLASH log_loc)) log_loc in
    runDR W test_drb rule_loc sess_name ;;
    report_output W log_loc [] ("DRBot run, " ++ Py.last_item (Py.split Py.BACKSLASH rule_loc)) false.

(** ** Vocabulary of the specification *)

(** Every character of [s] satisfies [p]. *)
Fixpoint all_chars (p : ascii -> bool) (s : string) : bool :=
  match s with
  | EmptyString => true
  | String c s' => p c && all_chars p s'
  end.

(** [ds] is a positive number in decimal: a digit from 1 to 9, then digits. *)
Definition positive_number (ds : string) : Prop :=
  exists c rest,
    ds = String c rest /\ Regex.is_nonzero_digit c = true /\
    all_chars Regex.is_digit rest = true.

(** [s] starts with "ERROR ", at least one zero, the number [ds] and a
    colon. *)
Definition code_here (s ds : string) : Prop :=
  exists zeros post,
    s = "ERROR " ++ zeros ++ ds ++ ":" ++ post /\
    zeros <> EmptyString /\ all_chars Regex.is_zero zeros = true /\
    positive_number ds.

(** The message has such a substring right after its prefix [pre]. *)
Definition error_code_at (msg pre ds : string) : Prop :=
  exists s, msg = pre ++ s /\ code_here s ds.

(** ... and no such substring starts earlier in the message. *)
Definition first_error_code (msg pre ds : string) : Prop :=
  error_code_at msg pre ds /\
  forall pre' ds', error_code_at msg pre' ds' ->
                   (String.length pre <= String.length pre')%nat.

(** The two kinds of lines of the summary. *)
Definition is_found_line (l : string) : bool := prefix "Found " l.
Definition is_total_line (l : string) : bool := prefix "Total " l.

(** Rows in the order of [ORDER BY CHECKTITLE, OBJECTID]: every row is at
    most every later row, by title first and by record id among equal
    titles. *)
Definition row_le (a b : finding) : Prop :=
  String.ltb (CHECKTITLE a) (CHECKTITLE b) = true \/
  (CHECKTITLE a = CHECKTITLE b /\ (OBJECTID a <= OBJECTID b)%Z).

Definition sorted_rows (rows : list finding) : Prop := StronglySorted row_le rows.

(** The distinct elements of a list, in the order of their first
    occurrence. *)
Fixpoint distinct (l : list string) : list string :=
  match l with
  | [] => []
  | x :: xs => x :: filter (fun y => negb (String.eqb y x)) (distinct xs)
  end.

Definition titles (rows : list finding) : list string := map CHECKTITLE rows.

Definition title_count (t : string) (rows : list finding) : nat :=
  List.length (filter (fun r => String.eqb (CHECKTITLE r) t) rows).

Definition nonempty (t : string) : bool := negb (String.eqb t EmptyString).

(** The lines that the loop of [summarise_dr_output] and the last total add
    to the log, from the loop variables [check_count] and [prev_check] and
    the rows still to come. *)
Fixpoint summary_lines (cnt : nat) (prev : string) (rows : list finding) : list string :=
  match rows with
  | [] => if nonempty prev then [total_line cnt prev] else []
  | row :: rest =>
      let changed := negb (String.eqb (CHECKTITLE row) prev) in
      ((if changed && nonempty prev then [total_line cnt prev] else []) ++
       found_line row ::
       summary_lines (S (if changed then 0 else cnt)) (CHECKTITLE row) rest)%list
  end.

(** Equal elements of [l] are next to each other. *)
Fixpoint contiguous (l : list string) : Prop :=
  match l with
  | [] => True
  | x :: xs => (In x xs -> hd_error xs = Some x) /\ contiguous xs
  end.

(** The calls that only concern the workspace directory and the messages. *)
Definition workspace_event (ev : event) : bool :=
  match ev with
  | AddMessage _ | Rmtree _ | Copytree _ _ | CreateFileGDB _ _
  | EnableDataReviewer _ => true
  | _ => false
  end.

Definition is_checkin (ev : event) : bool :=
  match ev with
  | CheckInExtension _ => true
  | _ => false
  end.

Definition is_checkout (ev : event) : bool :=
  match ev with
  | CheckOutExtension _ => true
  | _ => false
  end.

Definition is_batch_job (ev : event) : bool :=
  match ev with
  | ExecuteReviewerBatchJob _ _ _ _ => true
  | _ => false
  end.

(** [c] only touches the workspace: it leaves the log and the database
    setting as they are, and every call it makes is a workspace call. *)
Definition workspace_only {A} (c : M A) : Prop :=
  forall st, exists o ds evs,
    c st = (o, mkState (self_db st) (tmp_log_list st) ds (events st ++ evs)%list) /\
    forallb workspace_event evs = true.

Definition never_raises {A} (c : M A) : Prop :=
  forall st, exists a st', c st = (Returns a, st').

Definition is_smtp_call (ev : event) : bool :=
  match ev with
  | SmtpConnect _ | SmtpSendmail _ _ _ | SmtpQuit => true
  | _ => false
  end.

Definition is_write_file (ev : event) : bool :=
  match ev with
  | WriteFile _ _ => true
  | _ => false
  end.

(** The calls of the licence, of the engine and of the report. *)
Definition run_call (ev : event) : bool :=
  is_checkout ev || is_checkin ev || is_batch_job ev || is_write_file ev || is_smtp_call ev.

(** The mail transport fails with [e]: at the connection, at the sending or
    at the closing. *)
Definition transport_fails (W : World) (sender : string) (rcpts : list string)
    (body : string) (e : exn) : Prop :=
  SMTP W email_server = Some e \/
  (SMTP W email_server = None /\ sendmail W sender rcpts body = Some e) \/
  (SMTP W email_server = None /\ sendmail W sender rcpts body = None /\
   smtp_quit W = Some e).

(** ** A sample world *)

(** Surroundings with slash-separated paths, in which every call succeeds
    except the ones given as arguments: what reading a file gives, what the
    engine answers for a rule file, the rows of the findings table, and the
    results of deleting a tree and of connecting to the mail relay. *)
Definition sample_join (a b : string) : string := a ++ "/" ++ b.

Definition sample_dirname (p : string) : string :=
  Py.slice_to (Z.to_nat (Py.rfind "/" p)) p.

Definition sample_basename (p : string) : string :=
  Py.slice_from (Z.to_nat (1 + Py.rfind "/" p)) p.

Definition sample_world (file : string -> outcome string)
    (engine : string -> option exn) (rows : list finding)
    (rm : option exn) (relay : option exn) : World :=
  mkWorld sample_join sample_dirname sample_basename
          "drbot.py" "2017-05-04 10:00:00.000000" "0:00:12.345678"
          (fun _ => "error") (fun _ => "Error()") (fun _ => "Traceback")
          file (fun _ => None) (fun _ => rm) (fun _ _ => None)
          (fun _ _ => None) (fun _ => None) (fun _ _ _ => None)
          (fun _ fld => fld) (fun _ _ => Returns [1%Z])
          (fun _ _ rulefile _ => engine rulefile) (fun _ _ => Returns rows)
          (fun _ => relay) (fun _ _ _ => None) None.

(** An engine that fails on the rule file [b.rbj] with the given message. *)
Definition engine_failing (message : string) : string -> option exn :=
  fun rulefile =>
    if String.eqb rulefile "b.rbj" then Some (ExecuteError message) else None.

Definition msg_732 : string := "ERROR 000732: Batch Job File: b.rbj does not exist".
Definition msg_999 : string := "ERROR 000999: Error executing function.".

(** A manifest with an empty second line. *)
Definition manifest_with_empty_line : string :=
  "ruleA.rbj" ++ NL ++ NL ++ "ruleC.rbj".

(** The manifest of the end-to-end scenario of the specification. *)
Definition manifest_with_comment : string :=
  "ruleA.rbj" ++ NL ++ "# ruleB.rbj" ++ NL ++ "ruleC.rbj".

(** Findings of two checks, in the order of the table, and one finding of a
    check without a title. *)
Definition sample_rows : list finding :=
  [mkFinding "Duplicate geometry" "roads" "motorway-link" 12 "same as 11";
   mkFinding "Duplicate geometry" "roads" EmptyString 40 "same as 39";
   mkFinding "Invalid name" "places" "town" 3 "empty name"].

Definition untitled_rows : list finding :=
  [mkFinding EmptyString "roads" EmptyString 7 "no name"].

Definition no_file : string -> outcome string :=
  fun _ => Raises (IOError 2 "No such file or directory").

Definition sample_bot : DRBot := mkDRBot "/tmp/dr.gdb" EmptyString 4326.

Definition sample_state : state := initial_state [].

(** ** Relations between the state before and after a computation *)

(** [c] takes every state to a state related to it by [R], whether it
    returns or raises. *)
Definition steps (R : state -> state -> Prop) {A} (c : M A) : Prop :=
  forall st, R st (snd (c st)).

(** The calls made are all in [P], the log has only got longer, no
    directory has gone and the database setting is the same. *)
Definition run_rel (P : event -> bool) (st st' : state) : Prop :=
  (exists evs, events st' = (events st ++ evs)%list /\ forallb P evs = true) /\
  (exists lines, tmp_log_list st' = (tmp_log_list st ++ lines)%list) /\
  incl (dirs st) (dirs st') /\
  self_db st' = self_db st.

Definition is_rmtree (ev : event) : bool :=
  match ev with
  | Rmtree _ => true
  | _ => false
  end.

(** The calls made between the check-out and the check-in of the licence. *)
Definition inner_event (ev : event) : bool :=
  match ev with
  | AddMessage _ | Print _ | Copytree _ _ | CreateFileGDB _ _
  | EnableDataReviewer _ | CreateReviewerSession _ _ _
  | ExecuteReviewerBatchJob _ _ _ _ | OpenRead _ => true
  | _ => false
  end.

(** The calls of [runDR]: those, and the two calls of the licence. *)
Definition run_event (ev : event) : bool :=
  inner_event ev || is_checkout ev || is_checkin ev.

(** The calls of the checks before the first rule file. *)
Definition setup_event (ev : event) : bool :=
  inner_event ev && negb (is_batch_job ev).

(** No character of [s] is a line boundary. *)
Definition one_line (s : string) : bool :=
  all_chars (fun c => negb (Ascii.eqb c Py.LF) && negb (Ascii.eqb c Py.CR)) s.

(** The three calls of one turn of the loop over the rule files. *)
Definition turn_calls (self : DRBot) (sess db : string) (rulefile : string) : list event :=
  [AddMessage ("  Checking file: " ++ rulefile);
   Print ("Rules: " ++ rulefile);
   ExecuteReviewerBatchJob (dr_gdb_location self) sess rulefile db].

(** The engine rejects the rule file with code 732. *)
Definition rejected_732 (W : World) (self : DRBot) (sess db rulefile : string) : Prop :=
  exists m,
    ExecuteReviewerBatchJob_Reviewer W (dr_gdb_location self) sess rulefile db
      = Some (ExecuteError m) /\
    parse_arc_error (ExecuteError m) = Returns 732%Z.

(** The same as a test, for the warnings of a run. *)
Definition rejected_732b (W : World) (self : DRBot) (sess db rulefile : string) : bool :=
  match ExecuteReviewerBatchJob_Reviewer W (dr_gdb_location self) sess rulefile db with
  | Some (ExecuteError m) =>
      match parse_arc_error (ExecuteError m) with
      | Returns code => (code =? 732)%Z
      | Raises _ => false
      end
  | _ => false
  end.

(** The sample world in which no file can be opened for writing. *)
Definition read_only_world : World :=
  mkWorld sample_join sample_dirname sample_basename
          "drbot.py" "2017-05-04 10:00:00.000000" "0:00:12.345678"
          (fun _ => "error") (fun _ => "Error()") (fun _ => "Traceback")
          no_file (fun _ => Some (IOError 13 "Permission denied"))
          (fun _ => None) (fun _ _ => None)
          (fun _ _ => None) (fun _ => None) (fun _ _ _ => None)
          (fun _ fld => fld) (fun _ _ => Returns [1%Z])
          (fun _ _ _ _ => None) (fun _ _ => Returns [])
          (fun _ => None) (fun _ _ _ => None) None.

(** Reading any file fails because the disk does not answer. *)
Definition unreadable : string -> outcome string :=
  fun _ => Raises (IOError 5 "Input/output error").

(** The sample world whose session table has no row for the session. *)
Definition no_session_world : World :=
  mkWorld sample_join sample_dirname sample_basename
          "drbot.py" "2017-05-04 10:00:00.000000" "0:00:12.345678"
          (fun _ => "error") (fun _ => "Error()") (fun _ => "Traceback")
          no_file (fun _ => None) (fun _ => None) (fun _ _ => None)
          (fun _ _ => None) (fun _ => None) (fun _ _ _ => None)
          (fun _ fld => fld) (fun _ _ => Returns [])
          (fun _ _ _ _ => None) (fun _ _ => Returns [])
          (fun _ => None) (fun _ _ _ => None) None.

(** What follows the last [c] in [s], when [c] occurs in [s]. *)
Fixpoint tail_after (c : ascii) (s : string) : option string :=
  match s with
  | EmptyString => None
  | String d s' =>
      match tail_after c s' with
      | Some t => Some t
      | None => if Ascii.eqb d c then Some s' else None
      end
  end.

(** [c] occurs in [s]. *)
Fixpoint has_char (c : ascii) (s : string) : bool :=
  match s with
  | EmptyString => false
  | String d s' => Ascii.eqb d c || has_char c s'
  end.

(** * Properties *)

(** ** Strings *)

Lemma append_nil_r (s : string) : s ++ EmptyString = s.
Proof. induction s; simpl; congruence. Qed.

Lemma append_assoc (a b c : string) : (a ++ b) ++ c = a ++ (b ++ c).
Proof. induction a; simpl; congruence. Qed.

Lemma length_append (a b : string) :
  String.length (a ++ b) = (String.length a + String.length b)%nat.
Proof. induction a; simpl; congruence. Qed.

(** ** The pattern matcher *)

Lemma span_split p s a b :
  Regex.span p s = (a, b) -> s = a ++ b /\ all_chars p a = true.
Proof.
  revert a b; induction s as [|c s IH]; simpl; intros a b H.
  - inversion H; subst; auto.
  - destruct (p c) eqn:Hc.
    + destruct (Regex.span p s) as [a' b'] eqn:Hs.
      inversion H; subst; clear H.
      destruct (IH a' b eq_refl) as [-> Ha]. simpl. rewrite Hc, Ha. auto.
    + inversion H; subst; auto.
Qed.

(** A repetition followed by a character outside its class is the longest
    one. *)
Lemma span_stop p a c r :
  all_chars p a = true -> p c = false ->
  Regex.span p (a ++ String c r) = (a, String c r).
Proof.
  induction a as [|d a IH]; simpl; intros Ha Hc.
  - now rewrite Hc.
  - apply andb_true_iff in Ha as [Hd Ha]. now rewrite Hd, IH.
Qed.

Lemma strip_prefix_iff pre s r :
  Regex.strip_prefix pre s = Some r <-> s = pre ++ r.
Proof.
  revert s; induction pre as [|a pre IH]; intros s; simpl.
  - split; [intros [= ->]; reflexivity | intros ->; reflexivity].
  - destruct s as [|b s]; [split; discriminate|].
    destruct (Ascii.eqb a b) eqn:Hab.
    + apply Ascii.eqb_eq in Hab; subst b. rewrite IH.
      split; [intros ->; reflexivity | intros [= ->]; reflexivity].
    + apply Ascii.eqb_neq in Hab. split; [discriminate | intros [= <- _]; congruence].
Qed.

Lemma nonzero_digit_not_zero c :
  Regex.is_nonzero_digit c = true -> Regex.is_zero c = false.
Proof.
  unfold Regex.is_nonzero_digit, Regex.is_zero; intros H.
  apply Ascii.eqb_neq; intros ->. discriminate H.
Qed.

Lemma match_code_iff s ds :
  Regex.match_code s = Some ds <->
  exists zeros post,
    s = zeros ++ ds ++ ":" ++ post /\ zeros <> EmptyString /\
    all_chars Regex.is_zero zeros = true /\ positive_number ds.
Proof.
  unfold Regex.match_code; split.
  - destruct (Regex.span Regex.is_zero s) as [zeros r1] eqn:Hz.
    apply span_split in Hz as [-> Hz].
    destruct zeros as [|z zeros]; [discriminate|].
    destruct r1 as [|c r2]; [discriminate|].
    destruct (Regex.is_nonzero_digit c) eqn:Hc; [|discriminate].
    destruct (Regex.span Regex.is_digit r2) as [rest r3] eqn:Hd.
    apply span_split in Hd as [-> Hd].
    destruct r3 as [|k post]; [discriminate|].
    destruct (Ascii.eqb k ":") eqn:Hk.
    + apply Ascii.eqb_eq in Hk; subst k. intros [= <-].
      exists (String z zeros), post.
      split; [reflexivity|]. split; [discriminate|]. split; [exact Hz|].
      exists c, rest; auto.
    + intros H. exfalso. apply Ascii.eqb_neq in Hk.
      destruct k as [[] [] [] [] [] [] [] []]; try discriminate H. now apply Hk.
  - intros (zeros & post & -> & Hne & Hz & c & rest & -> & Hc & Hd).
    simpl. rewrite (span_stop _ zeros c _ Hz (nonzero_digit_not_zero c Hc)).
    destruct zeros as [|z zeros]; [congruence|].
    rewrite Hc. rewrite (span_stop _ rest ":" post Hd eq_refl). reflexivity.
Qed.

Lemma match_here_iff s ds : Regex.match_here s = Some ds <-> code_here s ds.
Proof.
  unfold Regex.match_here, code_here; split.
  - destruct (Regex.strip_prefix "ERROR " s) as [r|] eqn:Hp; [|discriminate].
    apply strip_prefix_iff in Hp; subst s. intros H.
    apply match_code_iff in H as (zeros & post & -> & H).
    exists zeros, post. split; [reflexivity | exact H].
  - intros (zeros & post & -> & H).
    replace (Regex.strip_prefix "ERROR " ("ERROR " ++ zeros ++ ds ++ ":" ++ post))
      with (Some (zeros ++ ds ++ ":" ++ post)) by reflexivity.
    apply match_code_iff. exists zeros, post. split; [reflexivity | exact H].
Qed.

Lemma append_inj_length (a a' b b' : string) :
  a ++ b = a' ++ b' -> String.length a = String.length a' -> a = a' /\ b = b'.
Proof.
  revert a'; induction a as [|c a IH]; intros [|c' a']; simpl; intros H L;
    try discriminate; auto.
  injection H as -> H. injection L as L.
  destruct (IH a' H L) as [-> ->]. auto.
Qed.

Lemma code_here_functional s ds ds' : code_here s ds -> code_here s ds' -> ds = ds'.
Proof.
  intros H H'. apply match_here_iff in H, H'. congruence.
Qed.

Lemma search_finds_first s ds :
  Regex.search s = Some ds -> exists pre, first_error_code s pre ds.
Proof.
  revert ds; induction s as [|c s IH]; intros ds; simpl.
  - discriminate.
  - destruct (Regex.match_here (String c s)) as [g|] eqn:Hm.
    + intros [= ->]. exists EmptyString. split.
      * exists (String c s). split; [reflexivity | now apply match_here_iff].
      * intros; simpl; lia.
    + intros Hs. destruct (IH ds Hs) as (pre & (r & -> & Hr) & Hmin).
      exists (String c pre). split.
      * exists r. split; [reflexivity | exact Hr].
      * intros pre' ds' (r' & E & Hr'). destruct pre' as [|c' pre'].
        -- simpl in E. subst r'. apply match_here_iff in Hr'. congruence.
        -- simpl in E. injection E as <- E. simpl.
           apply le_n_S, (Hmin pre' ds'). exists r'. split; [exact E | exact Hr'].
Qed.

Lemma search_none s :
  Regex.search s = None -> forall pre ds, ~ error_code_at s pre ds.
Proof.
  induction s as [|c s IH]; simpl.
  - intros _ pre ds (r & E & Hr). destruct pre; [|discriminate].
    simpl in E; subst r. apply match_here_iff in Hr. discriminate.
  - destruct (Regex.match_here (String c s)) as [g|] eqn:Hm; [discriminate|].
    intros Hs pre ds (r & E & Hr). destruct pre as [|c' pre].
    + simpl in E; subst r. apply match_here_iff in Hr. congruence.
    + simpl in E. injection E as <- E. apply (IH Hs pre ds). exists r; auto.
Qed.

Lemma first_error_code_functional msg pre ds pre' ds' :
  first_error_code msg pre ds -> first_error_code msg pre' ds' -> pre = pre' /\ ds = ds'.
Proof.
  intros [H Hmin] [H' Hmin'].
  pose proof (Hmin _ _ H') as L. pose proof (Hmin' _ _ H) as L'.
  destruct H as (r & E & Hr), H' as (r' & E' & Hr'). subst msg.
  destruct (append_inj_length _ _ _ _ E' ltac:(lia)) as [-> ->].
  split; [reflexivity | eapply code_here_functional; eauto].
Qed.

Lemma search_iff msg ds :
  Regex.search msg = Some ds <-> exists pre, first_error_code msg pre ds.
Proof.
  split; [apply search_finds_first|].
  intros [pre H]. destruct (Regex.search msg) as [g|] eqn:Hs.
  - destruct (search_finds_first _ _ Hs) as [pre' H'].
    destruct (first_error_code_functional _ _ _ _ _ H H') as [_ ->]. reflexivity.
  - destruct H as [H _]. exfalso. exact (search_none _ Hs _ _ H).
Qed.

(** ** [int] of a positive number *)

Lemma digit_val_range c : Regex.is_digit c = true -> (0 <= Py.digit_val c <= 9)%Z.
Proof.
  unfold Regex.is_digit, Py.digit_val. intros H.
  apply andb_true_iff in H as [H1 H2].
  apply Nat.leb_le in H1, H2. lia.
Qed.

Lemma int_aux_ge acc s :
  all_chars Regex.is_digit s = true -> (0 <= acc)%Z -> (acc <= Py.int_aux acc s)%Z.
Proof.
  revert acc; induction s as [|c s IH]; cbn [Py.int_aux all_chars];
    intros acc H Hacc; [lia|].
  apply andb_true_iff in H as [Hc Hs].
  pose proof (digit_val_range c Hc).
  specialize (IH (10 * acc + Py.digit_val c)%Z Hs). lia.
Qed.

Lemma int_positive ds : positive_number ds -> (0 < Py.int ds)%Z.
Proof.
  intros (c & rest & -> & Hc & Hrest). unfold Py.int; cbn [Py.int_aux].
  assert (1 <= Py.digit_val c)%Z as H1.
  { unfold Regex.is_nonzero_digit in Hc. unfold Py.digit_val.
    apply andb_true_iff in Hc as [H1 H2]. apply Nat.leb_le in H1. lia. }
  pose proof (int_aux_ge (10 * 0 + Py.digit_val c) rest Hrest). lia.
Qed.

(** ** [parse_arc_error] on any exception *)

Lemma parse_arc_error_returns e n :
  parse_arc_error e = Returns n <->
  exists pre ds, first_error_code (exn_message e) pre ds /\ n = Py.int ds.
Proof.
  unfold parse_arc_error. split.
  - destruct (Regex.search (exn_message e)) as [g|] eqn:Hs; [|discriminate].
    intros [= <-]. apply search_finds_first in Hs as [pre H]. eauto.
  - intros (pre & ds & H & ->).
    assert (Regex.search (exn_message e) = Some ds) as -> by (apply search_iff; eauto).
    reflexivity.
Qed.

Lemma parse_arc_error_raises e :
  parse_arc_error e = Raises e <-> forall pre ds, ~ error_code_at (exn_message e) pre ds.
Proof.
  unfold parse_arc_error. split.
  - destruct (Regex.search (exn_message e)) as [g|] eqn:Hs; [discriminate|].
    intros _. now apply search_none.
  - intros H. destruct (Regex.search (exn_message e)) as [g|] eqn:Hs; [|reflexivity].
    apply search_finds_first in Hs as (pre & Hat & _). exfalso. exact (H _ _ Hat).
Qed.

Lemma parse_arc_error_total e :
  (exists n, parse_arc_error e = Returns n) \/ parse_arc_error e = Raises e.
Proof.
  unfold parse_arc_error. destruct (Regex.search (exn_message e)); eauto.
Qed.

(** ** The monad *)

Lemma with_events_app st a b :
  with_events (with_events st a) b = with_events st (a ++ b)%list.
Proof. unfold with_events; simpl. now rewrite <- app_assoc. Qed.

Lemma with_log_app st a b :
  with_log (with_log st a) b = with_log st (a ++ b)%list.
Proof. unfold with_log; simpl. now rewrite <- app_assoc. Qed.

Lemma with_events_nil st : with_events st [] = st.
Proof. destruct st; unfold with_events; simpl. now rewrite app_nil_r. Qed.

Lemma with_log_nil st : with_log st [] = st.
Proof. destruct st; unfold with_log; simpl. now rewrite app_nil_r. Qed.

Lemma bind_emit {A} ev (k : unit -> M A) st :
  bind (emit ev) k st = k tt (with_events st [ev]).
Proof. reflexivity. Qed.

Lemma bind_log {A} msg (k : unit -> M A) st :
  bind (TmpLog.log msg) k st = k tt (with_log st [msg]).
Proof. reflexivity. Qed.

(** ** The loop over the rule files *)

(** One turn of the loop, by what the engine answers. *)
Lemma run_rulefiles_step W self sess rulefile rest st :
  let st1 := with_events st
               [AddMessage ("  Checking file: " ++ rulefile);
                Print ("Rules: " ++ rulefile);
                ExecuteReviewerBatchJob (dr_gdb_location self) sess rulefile (self_db st)] in
  run_rulefiles W self sess (rulefile :: rest) st =
  match ExecuteReviewerBatchJob_Reviewer W (dr_gdb_location self) sess rulefile (self_db st) with
  | None => run_rulefiles W self sess rest st1
  | Some (ExecuteError m) =>
      match parse_arc_error (ExecuteError m) with
      | Raises e' => (Raises e', st1)
      | Returns err =>
          if (err =? 732)%Z
          then run_rulefiles W self sess rest
                 (with_log st1 ["Found execution error: File " ++ rulefile ++ " not found."])
          else (Raises (ExecuteError m), st1)
      end
  | Some e => (Raises e, st1)
  end.
Proof.
  cbn zeta. cbn [run_rulefiles].
  unfold set_msg, print, get_db, call, try_except, bind, emit, ret, raise, lift_outcome.
  cbn [self_db with_events].
  destruct (ExecuteReviewerBatchJob_Reviewer W (dr_gdb_location self) sess rulefile (self_db st))
    as [e|]; rewrite ?with_events_app; cbn [app]; [|reflexivity].
  destruct e; try reflexivity.
  destruct (parse_arc_error (ExecuteError message)) as [err|e']; [|reflexivity].
  destruct (err =? 732)%Z; reflexivity.
Qed.

Lemma bind_raises {A B} (c : M A) (k : A -> M B) st e st' :
  c st = (Raises e, st') -> bind c k st = (Raises e, st').
Proof. unfold bind; now intros ->. Qed.

Lemma bind_returns {A B} (c : M A) (k : A -> M B) st a st' :
  c st = (Returns a, st') -> bind c k st = k a st'.
Proof. unfold bind; now intros ->. Qed.

(** [runDR], by what the rule-loading step and the checks do. *)
Lemma runDR_unfold W self rules sess_keywd st :
  runDR W self rules sess_keywd st =
  match load_rulefiles W rules
          (with_events (with_log st ["Start time: " ++ start_time W])
             [CheckOutExtension "datareviewer";
              AddMessage ("Loading rule file(s) from " ++ rules ++ "...")]) with
  | (Raises e, st2) => (Raises e, st2)
  | (Returns (ReturnEarly v), st2) => (Returns (Some v), st2)
  | (Returns (Rulefiles rulefiles), st2) =>
      let st3 :=
        match checks W self rulefiles sess_keywd st2 with
        | (Returns _, s) => s
        | (Raises exc, s) =>
            with_events s [AddMessage ("Exception during DRBot " ++ str_exn W exc);
                           AddMessage (format_exc W exc)]
        end in
      (Returns None,
       with_log (with_events st3 [CheckInExtension "datareviewer"])
         ["Done";
          NL ++ "Total " ++ script_file W ++ " duration (h:mm:ss.dd): " ++
          Py.drop_last 3 (run_duration W)])
  end.
Proof.
  unfold runDR. rewrite bind_log. rewrite bind_emit. unfold set_msg at 1.
  rewrite bind_emit. rewrite with_events_app. cbn [app].
  unfold bind at 1.
  destruct (load_rulefiles W rules _) as [[[v|rulefiles]|e] st2]; try reflexivity.
  unfold bind at 1. unfold try_except, any_exception.
  destruct (checks W self rulefiles sess_keywd st2) as [[u|exc] s].
  - unfold bind, emit, ret, TmpLog.log. rewrite with_log_app. reflexivity.
  - unfold set_msg, bind, emit, ret, TmpLog.log.
    rewrite with_log_app, !with_events_app. reflexivity.
Qed.

(** The checks raise what their loop over the rule files raises: nothing
    between the loop and the handler of [runDR] catches it. *)
Lemma checks_raise_from_loop W self rulefiles session_name st st_a cur sess_obj_id e st_c :
  prep_dr_ws W self session_name st = (Returns tt, st_a) ->
  SearchCursor W (dr_gdb_location self ++ "\GDB_REVSESSIONTABLE")
    (AddFieldDelimiters W (dr_gdb_location self ++ "\GDB_REVSESSIONTABLE") "SESSIONNAME"
     ++ " = '" ++ session_name ++ "'") = Returns cur ->
  List.last (map Some cur) None = Some sess_obj_id ->
  run_rulefiles W self ("Session " ++ Py.str_int sess_obj_id ++ " : " ++ session_name)
    rulefiles
    (with_log
       (with_events st_a
          [AddMessage ("  Created session:" ++ NL ++ "    " ++
                       "Session " ++ Py.str_int sess_obj_id ++ " : " ++ session_name)])
       ["Checking " ++ self_db st_a;
        "Errors will be written to " ++ dr_gdb_location self]) = (Raises e, st_c) ->
  checks W self (Some rulefiles) session_name st = (Raises e, st_c).
Proof.
  intros Hprep Hcur Hlast Hloop. unfold checks.
  rewrite (bind_returns _ _ _ _ _ Hprep). cbv beta zeta. rewrite Hcur.
  unfold lift_outcome at 1. unfold bind at 1. rewrite Hlast.
  unfold set_msg. rewrite bind_emit. unfold get_db. unfold bind at 1.
  cbn [self_db with_events]. rewrite bind_log, bind_log, with_log_app. cbn [app].
  apply bind_raises. exact Hloop.
Qed.

(** C3: in the loop over the rule files, an engine error whose code is 732 is
    logged as a warning line and the loop goes on with the remaining rule
    files; an engine error with another code is raised again, no remaining
    rule file is run, and [runDR] handles the exception in its catch-all
    handler, which reports it as messages and goes on to the check-in. *)
Theorem engine_error_policy W self sess rulefile rest st m code :
  ExecuteReviewerBatchJob_Reviewer W (dr_gdb_location self) sess rulefile (self_db st)
    = Some (ExecuteError m) ->
  parse_arc_error (ExecuteError m) = Returns code ->
  (code = 732%Z ->
   run_rulefiles W self sess (rulefile :: rest) st =
   run_rulefiles W self sess rest
     (with_log
        (with_events st
           [AddMessage ("  Checking file: " ++ rulefile);
            Print ("Rules: " ++ rulefile);
            ExecuteReviewerBatchJob (dr_gdb_location self) sess rulefile (self_db st)])
        ["Found execution error: File " ++ rulefile ++ " not found."])) /\
  (code <> 732%Z ->
   run_rulefiles W self sess (rulefile :: rest) st =
   (Raises (ExecuteError m),
    with_events st
      [AddMessage ("  Checking file: " ++ rulefile);
       Print ("Rules: " ++ rulefile);
       ExecuteReviewerBatchJob (dr_gdb_location self) sess rulefile (self_db st)]) /\
   forall rules sess_keywd st0 rulefiles st2 st3,
     load_rulefiles W rules
       (with_events (with_log st0 ["Start time: " ++ start_time W])
          [CheckOutExtension "datareviewer";
           AddMessage ("Loading rule file(s) from " ++ rules ++ "...")])
       = (Returns (Rulefiles rulefiles), st2) ->
     checks W self rulefiles sess_keywd st2 = (Raises (ExecuteError m), st3) ->
     runDR W self rules sess_keywd st0 =
     (Returns None,
      with_log
        (with_events st3
           [AddMessage ("Exception during DRBot " ++ str_exn W (ExecuteError m));
            AddMessage (format_exc W (ExecuteError m));
            CheckInExtension "datareviewer"])
        ["Done";
         NL ++ "Total " ++ script_file W ++ " duration (h:mm:ss.dd): " ++
         Py.drop_last 3 (run_duration W)])).
Proof.
  intros Heng Hparse. pose proof (run_rulefiles_step W self sess rulefile rest st) as Hstep.
  cbn zeta in Hstep. rewrite Heng, Hparse in Hstep. split.
  - intros ->. exact Hstep.
  - intros Hcode. apply Z.eqb_neq in Hcode. rewrite Hcode in Hstep. split; [exact Hstep|].
    intros rules sess_keywd st0 rulefiles st2 st3 Hload Hchecks.
    rewrite runDR_unfold, Hload. cbn zeta. rewrite Hchecks.
    rewrite with_events_app. reflexivity.
Qed.

(** C10: for an engine error with message [m], [parse_arc_error] returns a
    number exactly when [m] contains "ERROR ", one or more zeros, a positive
    number and a colon; the number returned is the one of the first such
    substring, read as an integer, and it is positive; when [m] has no such
    substring the error itself is raised again, and the loop over the rule
    files then raises it instead of logging a warning. *)
Theorem parse_arc_error_spec (m : string) :
  (forall n, parse_arc_error (ExecuteError m) = Returns n <->
             exists pre ds, first_error_code m pre ds /\ n = Py.int ds) /\
  ((exists n, parse_arc_error (ExecuteError m) = Returns n) <->
   (exists pre ds, error_code_at m pre ds)) /\
  (forall n, parse_arc_error (ExecuteError m) = Returns n -> (0 < n)%Z) /\
  (parse_arc_error (ExecuteError m) = Raises (ExecuteError m) <->
   forall pre ds, ~ error_code_at m pre ds) /\
  (forall W self sess rulefile rest st,
     (forall pre ds, ~ error_code_at m pre ds) ->
     ExecuteReviewerBatchJob_Reviewer W (dr_gdb_location self) sess rulefile (self_db st)
       = Some (ExecuteError m) ->
     run_rulefiles W self sess (rulefile :: rest) st =
     (Raises (ExecuteError m),
      with_events st
        [AddMessage ("  Checking file: " ++ rulefile);
         Print ("Rules: " ++ rulefile);
         ExecuteReviewerBatchJob (dr_gdb_location self) sess rulefile (self_db st)])).
Proof.
  pose proof (parse_arc_error_raises (ExecuteError m)) as Hraise. cbn [exn_message] in Hraise.
  split; [|split; [|split; [|split]]].
  - intros n. apply (parse_arc_error_returns (ExecuteError m)).
  - split.
    + intros [n Hn]. apply (parse_arc_error_returns (ExecuteError m)) in Hn
        as (pre & ds & [Hat _] & _). eauto.
    + intros (pre & ds & Hat).
      destruct (parse_arc_error_total (ExecuteError m)) as [H|H]; [exact H|].
      exfalso. exact (proj1 Hraise H _ _ Hat).
  - intros n Hn. apply (parse_arc_error_returns (ExecuteError m)) in Hn
      as (pre & ds & [(s & _ & zeros & post & _ & _ & _ & Hpos) _] & ->).
    now apply int_positive.
  - exact Hraise.
  - intros W self sess rulefile rest st Hno Heng.
    pose proof (run_rulefiles_step W self sess rulefile rest st) as Hstep.
    cbn zeta in Hstep. rewrite Heng in Hstep.
    rewrite (proj2 Hraise Hno) in Hstep. exact Hstep.
Qed.

(** The usual six-digit form gives the code; without a zero before the
    number there is no match and the error is raised again. *)
Example parse_six_digit_code :
  parse_arc_error (ExecuteError msg_732) = Returns 732%Z.
Proof. reflexivity. Qed.

Example parse_code_without_zero :
  parse_arc_error (ExecuteError "ERROR 732: x") = Raises (ExecuteError "ERROR 732: x").
Proof. reflexivity. Qed.

Lemma engine_error_policy_witness :
  let W := sample_world no_file (engine_failing msg_732) [] None None in
  let W' := sample_world no_file (engine_failing msg_999) [] None None in
  run_rulefiles W sample_bot "Session 1 : s" ["b.rbj"; "c.rbj"] sample_state =
  run_rulefiles W sample_bot "Session 1 : s" ["c.rbj"]
    (with_log
       (with_events sample_state
          [AddMessage "  Checking file: b.rbj"; Print "Rules: b.rbj";
           ExecuteReviewerBatchJob "/tmp/dr.gdb" "Session 1 : s" "b.rbj"
             "C:\arcgis\test\DataReviewer\testdata.gdb"])
       ["Found execution error: File b.rbj not found."]) /\
  run_rulefiles W' sample_bot "Session 1 : s" ["b.rbj"; "c.rbj"] sample_state =
  (Raises (ExecuteError msg_999),
   with_events sample_state
     [AddMessage "  Checking file: b.rbj"; Print "Rules: b.rbj";
      ExecuteReviewerBatchJob "/tmp/dr.gdb" "Session 1 : s" "b.rbj"
        "C:\arcgis\test\DataReviewer\testdata.gdb"]).
Proof.
  split.
  - exact (proj1 (engine_error_policy
                    (sample_world no_file (engine_failing msg_732) [] None None)
                    sample_bot "Session 1 : s" "b.rbj" ["c.rbj"] sample_state
                    msg_732 732 eq_refl eq_refl) eq_refl).
  - refine (proj1 (proj2 (engine_error_policy
                    (sample_world no_file (engine_failing msg_999) [] None None)
                    sample_bot "Session 1 : s" "b.rbj" ["c.rbj"] sample_state
                    msg_999 999 eq_refl eq_refl) _)).
    discriminate.
Defined.

(** ** [fix_path] and the manifest *)

(** C5: on a path of at least two characters, [fix_path] returns the path
    itself when its second character is a colon or its first character is a
    slash, and otherwise the base path joined with the path. *)
Theorem fix_path_spec W (path basepath : string) :
  (2 <= String.length path)%nat ->
  (String.get 1 path = Some ":"%char \/ String.get 0 path = Some "/"%char ->
   fix_path W path basepath = Returns path) /\
  (String.get 1 path <> Some ":"%char /\ String.get 0 path <> Some "/"%char ->
   fix_path W path basepath = Returns (os_path_join W basepath path)).
Proof.
  destruct path as [|c0 [|c1 rest]]; cbn [String.length]; try lia.
  intros _. unfold fix_path. cbn [String.get].
  destruct (Ascii.eqb_spec c1 ":") as [->|N1];
    destruct (Ascii.eqb_spec c0 "/") as [->|N0]; cbn [negb];
    (split; [intros [H|H] | intros [Ha Hb]]); try reflexivity; congruence.
Qed.

Lemma fix_path_spec_witness :
  fix_path (sample_world no_file (fun _ => None) [] None None) "c:\rules\a.rbj" "/base"
    = Returns "c:\rules\a.rbj" /\
  fix_path (sample_world no_file (fun _ => None) [] None None) "a.rbj" "/base"
    = Returns "/base/a.rbj".
Proof.
  split.
  - apply (fix_path_spec (sample_world no_file (fun _ => None) [] None None)
             "c:\rules\a.rbj" "/base"); [simpl; lia | left; reflexivity].
  - apply (fix_path_spec (sample_world no_file (fun _ => None) [] None None)
             "a.rbj" "/base"); [simpl; lia | split; discriminate].
Defined.

Lemma fix_path_raises W path basepath e :
  fix_path W path basepath = Raises e -> e = IndexError "string index out of range".
Proof.
  unfold fix_path.
  destruct (String.get 1 path) as [c1|]; [|congruence].
  destruct (negb (Ascii.eqb c1 ":")); [|discriminate].
  destruct (String.get 0 path) as [c0|]; [|congruence].
  destruct (negb (Ascii.eqb c0 "/")); discriminate.
Qed.

(** A line that is too short for [path[1]] makes the whole comprehension
    raise. *)
Lemma resolve_lines_empty_line W base lines :
  In EmptyString lines ->
  resolve_lines W base lines = Raises (IndexError "string index out of range").
Proof.
  induction lines as [|lin rest IH]; [intros []|].
  intros [->|Hin].
  - reflexivity.
  - cbn [resolve_lines]. destruct (negb (Py.slice_to 1 lin =? "#")); [|auto].
    destruct (fix_path W lin base) as [p|e] eqn:Hp.
    + now rewrite (IH Hin).
    + now rewrite (fix_path_raises _ _ _ _ Hp).
Qed.

(** The comment lines are dropped and the other lines are resolved, when
    each of the other lines has at least two characters. *)
Lemma resolve_lines_long_lines W base lines :
  (forall lin, In lin lines -> Py.slice_to 1 lin <> "#" -> (2 <= String.length lin)%nat) ->
  exists resolved,
    resolve_lines W base lines = Returns resolved /\
    map Returns resolved =
    map (fun lin => fix_path W lin base)
        (filter (fun lin => negb (Py.slice_to 1 lin =? "#")) lines).
Proof.
  induction lines as [|lin rest IH]; intros Hlen.
  - exists []. split; reflexivity.
  - destruct IH as (resolved & Hres & Hmap).
    { intros l Hl. apply Hlen. now right. }
    cbn [resolve_lines filter]. destruct (Py.slice_to 1 lin =? "#") eqn:Hc; cbn [negb].
    + exists resolved. split; assumption.
    + apply String.eqb_neq in Hc.
      assert (2 <= String.length lin)%nat as L by (apply Hlen; [now left | exact Hc]).
      destruct (fix_path W lin base) as [p|e] eqn:Hp.
      * exists (p :: resolved). rewrite Hres. split; [reflexivity|].
        cbn [map]. now rewrite Hmap, Hp.
      * exfalso. destruct lin as [|c0 [|c1 r]]; cbn [String.length] in L; try lia.
        unfold fix_path in Hp. cbn [String.get] in Hp.
        destruct (negb (Ascii.eqb c1 ":")); [|discriminate].
        destruct (negb (Ascii.eqb c0 "/")); discriminate.
Qed.

(** The scenario of the specification: the comment line is dropped, the two
    other lines are resolved against the directory of the manifest, and with
    no rule file there is no call of the engine. *)
Example load_manifest_with_comment :
  load_rulefiles (sample_world (fun _ => Returns manifest_with_comment)
                               (fun _ => None) [] None None)
                 "/jobs/rules.txt" sample_state =
  (Returns (Rulefiles (Some ["/jobs/ruleA.rbj"; "/jobs/ruleC.rbj"])),
   with_events sample_state [OpenRead "/jobs/rules.txt"]).
Proof. reflexivity. Qed.

Example run_no_rulefiles W self sess st :
  run_rulefiles W self sess [] st = (Returns tt, st).
Proof. reflexivity. Qed.

(** C2: a manifest with an empty line.  The line passes the test for
    comment lines and reaches [fix_path], whose [path[1]] raises
    [IndexError]; the exception is not an [IOError], so it leaves the
    rule-loading step and no list of rule files is produced. *)
Theorem empty_manifest_line_raises W rules content st :
  Py.contains ".txt" rules = true ->
  read_file W rules = Returns content ->
  In EmptyString (Py.splitlines content) ->
  load_rulefiles W rules st =
  (Raises (IndexError "string index out of range"), with_events st [OpenRead rules]).
Proof.
  intros Htxt Hread Hin. unfold load_rulefiles. rewrite Htxt.
  unfold try_except. rewrite bind_emit. rewrite Hread.
  unfold lift_outcome at 1. unfold bind at 1.
  rewrite (resolve_lines_empty_line W _ _ Hin). reflexivity.
Qed.

Lemma empty_manifest_line_raises_witness :
  load_rulefiles (sample_world (fun _ => Returns manifest_with_empty_line)
                               (fun _ => None) [] None None)
                 "/jobs/rules.txt" sample_state =
  (Raises (IndexError "string index out of range"),
   with_events sample_state [OpenRead "/jobs/rules.txt"]).
Proof.
  apply (empty_manifest_line_raises
           (sample_world (fun _ => Returns manifest_with_empty_line)
                         (fun _ => None) [] None None)
           "/jobs/rules.txt" manifest_with_empty_line sample_state).
  - reflexivity.
  - reflexivity.
  - right; left; reflexivity.
Defined.

(** ** The licence *)

(** When the rule-loading step leaves a list of rule files, or leaves the
    variable unbound, [runDR] returns normally and has checked the licence
    in, whatever the checks did. *)
Lemma runDR_checkin_when_loaded W self rules sess_keywd st rulefiles st2 :
  load_rulefiles W rules
    (with_events (with_log st ["Start time: " ++ start_time W])
       [CheckOutExtension "datareviewer";
        AddMessage ("Loading rule file(s) from " ++ rules ++ "...")])
    = (Returns (Rulefiles rulefiles), st2) ->
  exists st',
    runDR W self rules sess_keywd st = (Returns None, st') /\
    In (CheckInExtension "datareviewer") (events st').
Proof.
  intros Hload. rewrite runDR_unfold, Hload. cbn zeta.
  eexists. split; [reflexivity|].
  cbn [events with_log with_events]. apply in_or_app. right. now left.
Qed.

(** C4: a run on a manifest that does not exist.  The licence is checked
    out, the read fails with error number 2, and [runDR] returns 1 from the
    handler: the calls of the run hold a check-out and no check-in. *)
Theorem missing_manifest_skips_checkin W self rules sess_keywd st strerror :
  Py.contains ".txt" rules = true ->
  read_file W rules = Raises (IOError 2 strerror) ->
  let calls :=
    [CheckOutExtension "datareviewer";
     AddMessage ("Loading rule file(s) from " ++ rules ++ "...");
     OpenRead rules;
     AddMessage ("ERROR reading rules " ++ rules ++ ".");
     AddMessage strerror] in
  runDR W self rules sess_keywd st =
  (Returns (Some 1%Z),
   with_events (with_log st ["Start time: " ++ start_time W]) calls) /\
  existsb is_checkout calls = true /\
  existsb is_checkin calls = false.
Proof.
  intros Htxt Hread calls. split; [|split; reflexivity].
  rewrite runDR_unfold. unfold load_rulefiles. rewrite Htxt.
  unfold try_except. rewrite bind_emit, Hread.
  unfold lift_outcome at 1. unfold bind at 1.
  unfold set_msg. rewrite bind_emit. cbn [exc_item0_is Z.eqb Pos.eqb exc_item1].
  rewrite bind_emit. unfold ret. rewrite !with_events_app. reflexivity.
Qed.

Lemma missing_manifest_skips_checkin_witness :
  runDR (sample_world no_file (fun _ => None) [] None None) sample_bot
        "/jobs/rules.txt" "log.txt" sample_state =
  (Returns (Some 1%Z),
   with_events (with_log sample_state ["Start time: 2017-05-04 10:00:00.000000"])
     [CheckOutExtension "datareviewer";
      AddMessage "Loading rule file(s) from /jobs/rules.txt...";
      OpenRead "/jobs/rules.txt";
      AddMessage "ERROR reading rules /jobs/rules.txt.";
      AddMessage "No such file or directory"]).
Proof.
  apply (missing_manifest_skips_checkin
           (sample_world no_file (fun _ => None) [] None None) sample_bot
           "/jobs/rules.txt" "log.txt" sample_state "No such file or directory").
  - reflexivity.
  - reflexivity.
Defined.

(** ** The email *)

(** C8: when the mail transport fails, at the connection, at the sending or
    at the closing, [send_email] returns normally; the failure is printed
    ("Couldn't send email." and the exception) after the calls made to the
    relay, and the log is left as it was. *)
Theorem send_email_transport_failure W sender email_lst subject count_flag st e :
  transport_fails W sender email_lst
    (TmpLog.email_body sender email_lst subject count_flag (tmp_log_list st)) e ->
  exists calls,
    TmpLog.send_email W sender email_lst subject count_flag st =
    (Returns tt,
     with_events st (calls ++ [Print "Couldn't send email."; Print (repr_exn W e)])) /\
    forallb is_smtp_call calls = true /\
    tmp_log_list
      (with_events st (calls ++ [Print "Couldn't send email."; Print (repr_exn W e)]))
    = tmp_log_list st.
Proof.
  intros Hfail. unfold TmpLog.send_email, TmpLog.get_lines.
  unfold bind at 1. cbv zeta.
  set (body := TmpLog.email_body sender email_lst subject count_flag (tmp_log_list st)) in *.
  unfold try_except, any_exception, call, print, bind, emit, ret, raise.
  destruct Hfail as [H1 | [(H1 & H2) | (H1 & H2 & H3)]].
  - exists [SmtpConnect email_server]. rewrite H1.
    rewrite !with_events_app. repeat split; reflexivity.
  - exists [SmtpConnect email_server; SmtpSendmail sender email_lst body].
    rewrite H1, H2. rewrite !with_events_app. repeat split; reflexivity.
  - exists [SmtpConnect email_server; SmtpSendmail sender email_lst body; SmtpQuit].
    rewrite H1, H2, H3. rewrite !with_events_app. repeat split; reflexivity.
Qed.

Lemma send_email_transport_failure_witness :
  exists calls,
    TmpLog.send_email
      (sample_world no_file (fun _ => None) [] None (Some (OtherError "refused")))
      email_sender ["user@email.org"] "DRBot Run, a.rbj" found_marker
      (with_log sample_state ["Found roads, OBJECTID=7: t (n)"]) =
    (Returns tt,
     with_events (with_log sample_state ["Found roads, OBJECTID=7: t (n)"])
       (calls ++ [Print "Couldn't send email."; Print "Error()"])) /\
    forallb is_smtp_call calls = true /\
    tmp_log_list
      (with_events (with_log sample_state ["Found roads, OBJECTID=7: t (n)"])
         (calls ++ [Print "Couldn't send email."; Print "Error()"]))
    = ["Found roads, OBJECTID=7: t (n)"].
Proof.
  apply (send_email_transport_failure
           (sample_world no_file (fun _ => None) [] None (Some (OtherError "refused")))
           email_sender ["user@email.org"] "DRBot Run, a.rbj" found_marker
           (with_log sample_state ["Found roads, OBJECTID=7: t (n)"])
           (OtherError "refused")).
  left. reflexivity.
Defined.

(** Without a failure the three calls are made and nothing is printed. *)
Lemma send_email_delivered W sender email_lst subject count_flag st :
  SMTP W email_server = None ->
  sendmail W sender email_lst
    (TmpLog.email_body sender email_lst subject count_flag (tmp_log_list st)) = None ->
  smtp_quit W = None ->
  TmpLog.send_email W sender email_lst subject count_flag st =
  (Returns tt,
   with_events st
     [SmtpConnect email_server;
      SmtpSendmail sender email_lst
        (TmpLog.email_body sender email_lst subject count_flag (tmp_log_list st));
      SmtpQuit]).
Proof.
  intros H1 H2 H3. unfold TmpLog.send_email, TmpLog.get_lines.
  unfold bind at 1. cbv zeta.
  unfold try_except, any_exception, call, print, bind, emit, ret, raise.
  rewrite H1, H2, H3. rewrite !with_events_app. reflexivity.
Qed.

(** ** Computations that only touch the workspace *)

Section WorkspaceOnly.

Context {A B : Type}.

Lemma wo_ret (a : A) : workspace_only (ret a).
Proof.
  intros st. exists (Returns a), (dirs st), []. split; [|reflexivity].
  unfold ret. destruct st; cbn. now rewrite app_nil_r.
Qed.

Lemma wo_raise (e : exn) : workspace_only (@raise A e).
Proof.
  intros st. exists (Raises e), (dirs st), []. split; [|reflexivity].
  unfold raise. destruct st; cbn. now rewrite app_nil_r.
Qed.

Lemma wo_bind (c : M A) (k : A -> M B) :
  workspace_only c -> (forall a, workspace_only (k a)) -> workspace_only (bind c k).
Proof.
  intros Hc Hk st. destruct (Hc st) as (o & ds & evs & E & F).
  unfold bind. rewrite E. destruct o as [a|e].
  - destruct (Hk a (mkState (self_db st) (tmp_log_list st) ds (events st ++ evs)%list))
      as (o' & ds' & evs' & E' & F').
    cbn [self_db tmp_log_list events] in E'.
    exists o', ds', (evs ++ evs')%list. rewrite E', app_assoc. split; [reflexivity|].
    rewrite forallb_app, F, F'. reflexivity.
  - exists (Raises e), ds, evs. auto.
Qed.

Lemma wo_try (c : M A) (h : exn -> option (M A)) :
  workspace_only c -> (forall e k, h e = Some k -> workspace_only k) ->
  workspace_only (try_except c h).
Proof.
  intros Hc Hh st. destruct (Hc st) as (o & ds & evs & E & F).
  unfold try_except. rewrite E. destruct o as [a|e].
  - exists (Returns a), ds, evs. auto.
  - destruct (h e) as [k|] eqn:Hk.
    + destruct (Hh e k Hk (mkState (self_db st) (tmp_log_list st) ds (events st ++ evs)%list))
        as (o' & ds' & evs' & E' & F').
      cbn [self_db tmp_log_list events] in E'.
      exists o', ds', (evs ++ evs')%list. rewrite E', app_assoc. split; [reflexivity|].
      rewrite forallb_app, F, F'. reflexivity.
    + exists (Raises e), ds, evs. auto.
Qed.

Lemma nr_ret (a : A) : never_raises (ret a).
Proof. intros st. exists a, st. reflexivity. Qed.

Lemma nr_bind (c : M A) (k : A -> M B) :
  never_raises c -> (forall a, never_raises (k a)) -> never_raises (bind c k).
Proof.
  intros Hc Hk st. destruct (Hc st) as (a & st' & E).
  unfold bind. rewrite E. apply Hk.
Qed.

Lemma nr_try (c : M A) (h : exn -> option (M A)) :
  (forall e, exists k, h e = Some k /\ never_raises k) -> never_raises (try_except c h).
Proof.
  intros Hh st. unfold try_except. destruct (c st) as [[a|e] st'].
  - exists a, st'. reflexivity.
  - destruct (Hh e) as (k & -> & Hk). apply Hk.
Qed.

End WorkspaceOnly.

Lemma wo_emit ev : workspace_event ev = true -> workspace_only (emit ev).
Proof.
  intros H st. exists (Returns tt), (dirs st), [ev]. split; [reflexivity|].
  cbn. now rewrite H.
Qed.

Lemma wo_call ev r : workspace_event ev = true -> workspace_only (call ev r).
Proof.
  intros H. unfold call. apply wo_bind; [now apply wo_emit|].
  intros _. destruct r; [apply wo_raise | apply wo_ret].
Qed.

Lemma wo_set_msg s : workspace_only (set_msg s).
Proof. now apply wo_emit. Qed.

Lemma wo_isdir p : workspace_only (isdir p).
Proof.
  intros st. exists (Returns (existsb (String.eqb p) (dirs st))), (dirs st), [].
  split; [|reflexivity].
  unfold isdir. destruct st; cbn. now rewrite app_nil_r.
Qed.

Lemma wo_add_dir p : workspace_only (add_dir p).
Proof.
  intros st. exists (Returns tt), (p :: dirs st), []. split; [|reflexivity].
  unfold add_dir. cbn. now rewrite app_nil_r.
Qed.

Lemma wo_remove_dir p : workspace_only (remove_dir p).
Proof.
  intros st.
  exists (Returns tt), (filter (fun d => negb (String.eqb p d)) (dirs st)), [].
  split; [|reflexivity].
  unfold remove_dir. cbn. now rewrite app_nil_r.
Qed.

Lemma nr_emit ev : never_raises (emit ev).
Proof. intros st. eexists _, _. reflexivity. Qed.

Lemma nr_set_msg s : never_raises (set_msg s).
Proof. apply nr_emit. Qed.

Lemma nr_isdir p : never_raises (isdir p).
Proof. intros st. eexists _, _. reflexivity. Qed.

Create HintDb workspace.

#[local] Hint Resolve wo_ret wo_raise wo_set_msg wo_isdir wo_add_dir wo_remove_dir
  nr_ret nr_set_msg nr_isdir : workspace.

Ltac workspace_steps :=
  repeat first
    [ apply wo_call; reflexivity
    | apply wo_emit; reflexivity
    | apply wo_bind; [|intros ?]
    | apply wo_try; [|let e := fresh "e" in let k := fresh "k" in let H := fresh "H" in
                      intros e k H; unfold any_exception in H; try destruct e;
                      injection H as <-]
    | solve [auto with workspace]
    | match goal with
      | |- workspace_only (if ?b then _ else _) => destruct b
      | |- workspace_only (match ?x with _ => _ end) => destruct x
      end ].

Lemma make_dr_gdb_workspace_only W self : workspace_only (make_dr_gdb W self).
Proof. unfold make_dr_gdb, copy_template, create_empty_gdb. workspace_steps. Qed.

Lemma copy_template_never_raises W self : never_raises (copy_template W self).
Proof.
  unfold copy_template. apply nr_try.
  intros e. destruct e; eexists; (split; [reflexivity|]);
    (apply nr_bind; [apply nr_set_msg | intros _]);
    try match goal with |- never_raises (if ?b then _ else _) => destruct b end;
    apply nr_set_msg.
Qed.

Lemma create_empty_gdb_never_raises W self : never_raises (create_empty_gdb W self).
Proof.
  unfold create_empty_gdb. apply nr_try.
  intros e. eexists; split; [reflexivity|].
  apply nr_bind; [apply nr_set_msg | intros _; apply nr_ret].
Qed.

Lemma make_dr_gdb_never_raises W self : never_raises (make_dr_gdb W self).
Proof.
  unfold make_dr_gdb.
  apply nr_bind; [apply nr_set_msg | intros _].
  apply nr_bind; [apply nr_isdir | intros has_template].
  apply nr_bind.
  - destruct has_template; [apply copy_template_never_raises | apply nr_ret].
  - intros _. apply nr_bind; [apply nr_isdir | intros exists_now].
    destruct exists_now; cbn [negb]; [apply nr_ret|].
    apply nr_bind; [apply nr_set_msg | intros _; apply create_empty_gdb_never_raises].
Qed.

Lemma clean_dr_ws_workspace_only W self : workspace_only (clean_dr_ws W self).
Proof.
  unfold clean_dr_ws. pose proof (make_dr_gdb_workspace_only W self).
  workspace_steps.
Qed.

Lemma clean_dr_ws_never_raises W self : never_raises (clean_dr_ws W self).
Proof.
  unfold clean_dr_ws.
  apply nr_bind; [apply nr_set_msg | intros _].
  apply nr_bind; [apply nr_isdir | intros present].
  destruct present; [|apply nr_ret].
  apply nr_bind.
  - apply nr_try. intros e. eexists; split; [reflexivity|].
    apply nr_bind; [apply nr_set_msg | intros _].
    destruct (exc_item0_is e 32);
      repeat (apply nr_bind; [apply nr_set_msg | intros _]); apply nr_ret.
  - intros [|]; [|apply nr_ret].
    apply nr_bind; [apply make_dr_gdb_never_raises | intros _; apply nr_ret].
Qed.

(** ** The clean mode *)

Lemma workspace_event_not_run_call evs :
  forallb workspace_event evs = true -> existsb run_call evs = false.
Proof.
  induction evs as [|ev evs IH]; [reflexivity|]. cbn [forallb existsb].
  intros H. apply andb_true_iff in H as [Hev Hevs]. rewrite (IH Hevs).
  destruct ev; try discriminate Hev; reflexivity.
Qed.

(** C9: with exactly one argument, and that argument "clean",
    [run_from_sysargs] runs [clean_dr_ws] and then logs "Cleanup
    completed."; it does not raise, the log gets that line only, and the
    calls made are workspace calls: no check-out or check-in of the licence,
    no batch job, no file written and no mail. *)
Theorem clean_mode_only_cleans W self prog def_rules st :
  exists r st1 evs,
    clean_dr_ws W self st = (Returns r, st1) /\
    run_from_sysargs W self [prog; "clean"] def_rules st =
      (Returns tt, with_log st1 ["Cleanup completed."]) /\
    self_db st1 = self_db st /\
    tmp_log_list (with_log st1 ["Cleanup completed."]) =
      (tmp_log_list st ++ ["Cleanup completed."])%list /\
    events (with_log st1 ["Cleanup completed."]) = (events st ++ evs)%list /\
    forallb workspace_event evs = true /\
    existsb run_call evs = false.
Proof.
  destruct (clean_dr_ws_never_raises W self st) as (r & st1 & Hrun).
  destruct (clean_dr_ws_workspace_only W self st) as (o & ds & evs & Hwo & Hevs).
  rewrite Hrun in Hwo. injection Hwo as _ ->.
  eexists r, _, evs. split; [exact Hrun|].
  split; [|repeat split; auto using workspace_event_not_run_call].
  unfold run_from_sysargs. cbn [List.length Nat.eqb nth andb].
  rewrite String.eqb_refl. unfold bind. rewrite Hrun. reflexivity.
Qed.

(** C9 as first stated fails: with a second argument after "clean" the run
    is an ordinary one, with the rule file named "clean". *)
Lemma clean_with_more_arguments_runs_checks :
  let W := sample_world no_file (fun _ => None) [] None None in
  let final := snd (run_from_sysargs W sample_bot ["drbot.py"; "clean"; "log.txt"]
                                     "rules/sample1.rbj" sample_state) in
  existsb is_checkout (events final) = true /\
  existsb is_batch_job (events final) = true /\
  existsb is_write_file (events final) = true /\
  In (ExecuteReviewerBatchJob "/tmp/dr.gdb" "Session 1 : log.txt" "clean"
        "C:\arcgis\test\DataReviewer\testdata.gdb") (events final).
Proof.
  cbv zeta. repeat split; try (vm_compute; reflexivity).
  vm_compute. tauto.
Qed.

(** ** [clean_dr_ws] *)

(** With a file geodatabase that can be created and enabled, [make_dr_gdb]
    returns without a value and the workspace directory exists. *)
Lemma make_dr_gdb_creates W self st :
  CreateFileGDB_management W (os_path_dirname W (dr_gdb_location self))
                             (os_path_basename W (dr_gdb_location self)) = None ->
  EnableDataReviewer_Reviewer W (dr_gdb_location self) = None ->
  exists st',
    make_dr_gdb W self st = (Returns None, st') /\
    existsb (String.eqb (dr_gdb_location self)) (dirs st') = true.
Proof.
  intros Hcreate Henable. unfold make_dr_gdb.
  unfold set_msg. rewrite bind_emit.
  unfold isdir at 1. unfold bind at 1.
  set (st1 := with_events st [AddMessage "Making DR gdb..."]).
  assert (exists u st2,
             (if existsb (String.eqb (template_dr_gdb self)) (dirs st1)
              then copy_template W self else ret tt) st1 = (Returns u, st2))
    as (u & st2 & Hcopy).
  { destruct (existsb _ (dirs st1));
      [apply copy_template_never_raises | apply (nr_ret tt)]. }
  rewrite (bind_returns _ _ _ _ _ Hcopy).
  unfold isdir, bind at 1.
  destruct (existsb (String.eqb (dr_gdb_location self)) (dirs st2)) eqn:Hd; cbn [negb].
  - exists st2. split; [reflexivity | exact Hd].
  - rewrite bind_emit. unfold create_empty_gdb, try_except, call.
    rewrite Hcreate, Henable. unfold add_dir, bind, emit, ret.
    eexists. split; [reflexivity|].
    cbn [dirs with_events existsb]. now rewrite String.eqb_refl.
Qed.

(** C7: what [clean_dr_ws] does, by whether the workspace directory exists
    and by what deleting it gives.  If the directory does not exist, nothing
    is deleted and nothing is created.  If it is deleted, [make_dr_gdb] runs
    at once on the state without it.  If deleting fails with error number 32,
    the failure is reported and 1 is returned without [make_dr_gdb]; if it
    fails otherwise, the failure is reported and [make_dr_gdb] still runs.
    Where [make_dr_gdb] runs and the file geodatabase can be created and
    enabled, the workspace directory exists afterwards. *)
Theorem clean_dr_ws_cases W self st :
  clean_dr_ws W self st =
  (if existsb (String.eqb (dr_gdb_location self)) (dirs st) then
     match rmtree W (dr_gdb_location self) with
     | None =>
         bind (make_dr_gdb W self) (fun _ => ret (@None Z))
           (mkState (self_db st) (tmp_log_list st)
              (filter (fun d => negb (String.eqb (dr_gdb_location self) d)) (dirs st))
              (events st ++
               [AddMessage "Cleaning up DR gdb...";
                AddMessage ("Deleting DR gdb " ++ dr_gdb_location self ++ "...");
                Rmtree (dr_gdb_location self)]))
     | Some exc =>
         if exc_item0_is exc 32 then
           (Returns (Some 1%Z),
            with_events st
              [AddMessage "Cleaning up DR gdb...";
               AddMessage ("Deleting DR gdb " ++ dr_gdb_location self ++ "...");
               Rmtree (dr_gdb_location self);
               AddMessage "Failed to delete existing DR gdb.";
               AddMessage ("  " ++ exc_item1 exc)])
         else
           bind (make_dr_gdb W self) (fun _ => ret (@None Z))
             (with_events st
                [AddMessage "Cleaning up DR gdb...";
                 AddMessage ("Deleting DR gdb " ++ dr_gdb_location self ++ "...");
                 Rmtree (dr_gdb_location self);
                 AddMessage "Failed to delete existing DR gdb.";
                 AddMessage ("Exception during DR workspace cleanup " ++ str_exn W exc);
                 AddMessage (format_exc W exc)])
     end
   else (Returns None, with_events st [AddMessage "Cleaning up DR gdb..."])) /\
  (CreateFileGDB_management W (os_path_dirname W (dr_gdb_location self))
                              (os_path_basename W (dr_gdb_location self)) = None ->
   EnableDataReviewer_Reviewer W (dr_gdb_location self) = None ->
   forall st0, exists st',
     bind (make_dr_gdb W self) (fun _ => ret (@None Z)) st0 = (Returns (@None Z), st') /\
     existsb (String.eqb (dr_gdb_location self)) (dirs st') = true).
Proof.
  split.
  - unfold clean_dr_ws.
    unfold set_msg at 1. rewrite bind_emit. unfold isdir at 1. unfold bind at 1.
    cbn [dirs with_events].
    destruct (existsb (String.eqb (dr_gdb_location self)) (dirs st)); [|reflexivity].
    unfold try_except, any_exception, set_msg, call, remove_dir, bind, emit, ret, raise,
      with_events.
    destruct (rmtree W (dr_gdb_location self)) as [exc|];
      [destruct (exc_item0_is exc 32)|];
      cbn [self_db tmp_log_list dirs events]; rewrite <- ?app_assoc; reflexivity.
  - intros Hcreate Henable st0.
    destruct (make_dr_gdb_creates W self st0 Hcreate Henable) as (st' & Hrun & Hdir).
    exists st'. unfold bind. rewrite Hrun. auto.
Qed.

(** C7 as first stated fails twice: on a workspace directory that does not
    exist nothing is created although the file geodatabase could be, and a
    deletion that fails with an error number other than 32 is followed by
    [make_dr_gdb]. *)
Lemma clean_dr_ws_not_as_stated :
  let W := sample_world no_file (fun _ => None) [] None None in
  let W13 := sample_world no_file (fun _ => None) []
                          (Some (OSError 13 "Permission denied")) None in
  clean_dr_ws W sample_bot sample_state =
    (Returns None, with_events sample_state [AddMessage "Cleaning up DR gdb..."]) /\
  existsb (String.eqb (dr_gdb_location sample_bot))
          (dirs (snd (clean_dr_ws W sample_bot sample_state))) = false /\
  clean_dr_ws W13 sample_bot (initial_state ["/tmp/dr.gdb"]) =
    (Returns None,
     with_events (initial_state ["/tmp/dr.gdb"])
       [AddMessage "Cleaning up DR gdb...";
        AddMessage "Deleting DR gdb /tmp/dr.gdb...";
        Rmtree "/tmp/dr.gdb";
        AddMessage "Failed to delete existing DR gdb.";
        AddMessage "Exception during DR workspace cleanup error";
        AddMessage "Traceback";
        AddMessage "Making DR gdb..."]).
Proof. cbv zeta. repeat split. Qed.

(** ** [summarise_dr_output] *)

Lemma prefix_empty s : prefix EmptyString s = true.
Proof. now destruct s. Qed.

Lemma is_found_found_line row : is_found_line (found_line row) = true.
Proof.
  unfold is_found_line, found_line, found_marker.
  change (prefix EmptyString
            (ORIGINTABLE row ++ fcs_str (SUBTYPE row) ++ ", OBJECTID=" ++
             Py.str_int (OBJECTID row) ++ ": " ++ encode_if_unicode (CHECKTITLE row) ++
             " (" ++ encode_if_unicode (NOTES row) ++ ")") = true).
  apply prefix_empty.
Qed.

Lemma is_total_found_line row : is_total_line (found_line row) = false.
Proof. reflexivity. Qed.

Lemma is_found_total_line n t : is_found_line (total_line n t) = false.
Proof. reflexivity. Qed.

Lemma is_total_total_line n t : is_total_line (total_line n t) = true.
Proof.
  unfold is_total_line, total_line.
  change (prefix EmptyString (Py.str_nat n ++ " DRBot hits for " ++ t ++ NL) = true).
  apply prefix_empty.
Qed.

(** The loop and the last total, as lines added to the log. *)
Lemma fold_summarise_row rows v :
  let v' := fold_left summarise_row rows v in
  (if negb (String.eqb (prev_check v') EmptyString)
   then lg v' ++ [total_line (check_count v') (prev_check v')]
   else lg v')%list
  = (lg v ++ summary_lines (check_count v) (prev_check v) rows)%list.
Proof.
  cbv zeta. revert v. induction rows as [|row rest IH]; intros v.
  - cbn [fold_left summary_lines]. unfold nonempty.
    destruct (negb (prev_check v =? EmptyString)); [reflexivity | now rewrite app_nil_r].
  - cbn [fold_left summary_lines]. rewrite IH. unfold summarise_row, nonempty.
    destruct (String.eqb_spec (CHECKTITLE row) (prev_check v)) as [E|N]; cbn [negb andb].
    + cbn [check_count prev_check lg]. rewrite E, <- app_assoc. reflexivity.
    + cbn [check_count prev_check lg].
      destruct (negb (prev_check v =? EmptyString)); rewrite <- ?app_assoc; reflexivity.
Qed.

Lemma summarise_log_lines rows log0 :
  summarise_log rows log0 =
  (log0 ++ summary_lines 0 EmptyString rows ++
   (if (TmpLog.count_lines_with found_marker (log0 ++ summary_lines 0 EmptyString rows) =? 0)%nat
    then ["No errors found."] else []))%list.
Proof.
  unfold summarise_log.
  pose proof (fold_summarise_row rows (mkVars 0 EmptyString log0)) as H.
  cbv zeta in H. cbn [check_count prev_check lg] in H. rewrite H.
  destruct (TmpLog.count_lines_with _ _ =? 0)%nat;
    [now rewrite app_assoc | now rewrite app_nil_r].
Qed.

Lemma summarise_dr_output_log W self sess_obj_id rows st :
  da_SearchCursor W (dr_gdb_location self ++ "/REVTABLEMAIN")
                  ("SESSIONID=" ++ Py.str_int sess_obj_id) = Returns rows ->
  summarise_dr_output W self sess_obj_id st =
  (Returns tt,
   with_log st
     (summary_lines 0 EmptyString rows ++
      (if (TmpLog.count_lines_with found_marker
             (tmp_log_list st ++ summary_lines 0 EmptyString rows) =? 0)%nat
       then ["No errors found."] else []))).
Proof.
  intros Hrows. unfold summarise_dr_output. rewrite Hrows.
  unfold lift_outcome, TmpLog.get_lines, set_log, bind, with_log.
  now rewrite summarise_log_lines.
Qed.

(** C6: with no row for the session, [summarise_dr_output] adds exactly the
    line "No errors found." when no line of the log contains "Found", and
    adds nothing when some line does. *)
Theorem no_rows_summary W self sess_obj_id st :
  da_SearchCursor W (dr_gdb_location self ++ "/REVTABLEMAIN")
                  ("SESSIONID=" ++ Py.str_int sess_obj_id) = Returns [] ->
  summarise_dr_output W self sess_obj_id st =
  (Returns tt,
   with_log st
     (if (TmpLog.count_lines_with found_marker (tmp_log_list st) =? 0)%nat
      then ["No errors found."] else [])).
Proof.
  intros Hrows. rewrite (summarise_dr_output_log W self sess_obj_id [] st Hrows).
  cbn [summary_lines nonempty String.eqb negb app]. now rewrite app_nil_r.
Qed.

Lemma no_rows_summary_witness :
  summarise_dr_output (sample_world no_file (fun _ => None) [] None None)
                      sample_bot 1 sample_state =
  (Returns tt, with_log sample_state ["No errors found."]).
Proof.
  apply (no_rows_summary (sample_world no_file (fun _ => None) [] None None)
                         sample_bot 1 sample_state).
  reflexivity.
Defined.

(** C6 as first stated fails: after the warning for a rule file that was not
    found, the log has a line with "Found", and a session without rows gets
    no "No errors found." line.  The second part is a whole run on the rule
    file [b.rbj], which the engine rejects with code 732. *)
Lemma no_rows_after_warning_adds_nothing :
  let W := sample_world no_file (engine_failing msg_732) [] None None in
  let st := with_log sample_state ["Found execution error: File b.rbj not found."] in
  summarise_dr_output W sample_bot 1 st = (Returns tt, with_log st []) /\
  tmp_log_list (snd (runDR W sample_bot "b.rbj" "log.txt" sample_state)) =
    ["Start time: 2017-05-04 10:00:00.000000";
     "Checking C:\arcgis\test\DataReviewer\testdata.gdb";
     "Errors will be written to /tmp/dr.gdb";
     "Found execution error: File b.rbj not found.";
     "Done";
     NL ++ "Total drbot.py duration (h:mm:ss.dd): 0:00:12.345"].
Proof. cbv zeta. split; reflexivity. Qed.

(** One "Found" line for each row, in the order of the rows. *)
Lemma found_lines_of_summary rows cnt prev :
  filter is_found_line (summary_lines cnt prev rows) = map found_line rows.
Proof.
  revert cnt prev; induction rows as [|row rest IH]; intros cnt prev.
  - cbn [summary_lines map]. destruct (nonempty prev); [|reflexivity].
    cbn [filter]. now rewrite is_found_total_line.
  - cbn [summary_lines map]. rewrite filter_app. cbn [filter].
    rewrite is_found_found_line, IH.
    destruct (_ && nonempty prev); [|reflexivity].
    cbn [filter]. now rewrite is_found_total_line.
Qed.

Lemma in_distinct x l : In x (distinct l) <-> In x l.
Proof.
  induction l as [|y l IH]; [reflexivity|]. cbn [distinct In].
  rewrite filter_In, IH, negb_true_iff, String.eqb_neq.
  destruct (string_dec y x) as [->|N]; [tauto|].
  split; [tauto|]. intros [H|H]; [tauto|]. right. split; [exact H | congruence].
Qed.

Lemma NoDup_distinct l : NoDup (distinct l).
Proof.
  induction l as [|y l IH]; [constructor|]. cbn [distinct]. constructor.
  - rewrite filter_In, String.eqb_refl. intros [_ H]. discriminate H.
  - now apply NoDup_filter.
Qed.

Lemma title_count_cons_same row rest :
  title_count (CHECKTITLE row) (row :: rest) = S (title_count (CHECKTITLE row) rest).
Proof. unfold title_count. cbn [filter]. now rewrite String.eqb_refl. Qed.

Lemma title_count_cons_other t row rest :
  t <> CHECKTITLE row -> title_count t (row :: rest) = title_count t rest.
Proof.
  intros N. unfold title_count. cbn [filter].
  destruct (String.eqb_spec (CHECKTITLE row) t); [congruence | reflexivity].
Qed.

Lemma title_count_absent t rows : ~ In t (titles rows) -> title_count t rows = 0%nat.
Proof.
  induction rows as [|row rest IH]; [reflexivity|]. cbn [titles map In]. intros H.
  rewrite title_count_cons_other by (intros ->; tauto). apply IH. tauto.
Qed.

Lemma filter_twice {A} (f g : A -> bool) l :
  filter f (filter g l) = filter (fun x => g x && f x) l.
Proof.
  induction l as [|x l IH]; [reflexivity|]. cbn [filter].
  destruct (g x); cbn [andb filter]; [destruct (f x)|]; now rewrite IH.
Qed.

(** The totals that the loop writes when equal titles are next to each
    other: the total of the title at hand unless it is empty, then one
    total for each further title that is not empty. *)
Lemma total_lines_of_summary rows cnt prev :
  contiguous (prev :: titles rows) ->
  filter is_total_line (summary_lines cnt prev rows) =
  ((if nonempty prev then [total_line (cnt + title_count prev rows) prev] else []) ++
   map (fun t => total_line (title_count t rows) t)
       (filter (fun t => nonempty t && negb (String.eqb t prev))
               (distinct (titles rows))))%list.
Proof.
  revert cnt prev; induction rows as [|row rest IH]; intros cnt prev Hc.
  - cbn [summary_lines titles map distinct filter]. rewrite app_nil_r.
    unfold title_count; cbn [filter List.length]. rewrite Nat.add_0_r.
    destruct (nonempty prev); [|reflexivity].
    cbn [filter]. now rewrite is_total_total_line.
  - cbn [titles map] in Hc. fold (titles rest) in Hc. destruct Hc as [Hprev Hc].
    cbn [summary_lines]. rewrite filter_app. cbn [filter].
    rewrite is_total_found_line, (IH _ _ Hc). clear IH.
    cbn [titles map distinct filter]. fold (titles rest).
    rewrite filter_twice.
    destruct (String.eqb_spec (CHECKTITLE row) prev) as [E|N]; cbn [negb andb].
    + (* the title at hand goes on *)
      subst prev. rewrite andb_false_r. cbn [app filter].
      rewrite title_count_cons_same, Nat.add_succ_r. cbn [Nat.add].
      f_equal.
      rewrite (filter_ext (fun x => negb (x =? CHECKTITLE row) &&
                                    (nonempty x && negb (x =? CHECKTITLE row)))
                          (fun t => nonempty t && negb (t =? CHECKTITLE row))).
      2:{ intros x. destruct (nonempty x), (x =? CHECKTITLE row); reflexivity. }
      apply map_ext_in. intros t Ht. apply filter_In in Ht as [_ Ht].
      apply andb_true_iff in Ht as [_ Ht]. apply negb_true_iff, String.eqb_neq in Ht.
      now rewrite title_count_cons_other.
    + (* a new title begins *)
      assert (~ In prev (CHECKTITLE row :: titles rest)) as Habs.
      { intros Hin. apply Hprev in Hin. cbn in Hin. congruence. }
      rewrite (title_count_absent prev (row :: rest)) by exact Habs.
      rewrite Nat.add_0_r, andb_true_r.
      assert (filter is_total_line (if nonempty prev then [total_line cnt prev] else [])
              = if nonempty prev then [total_line cnt prev] else []) as ->.
      { destruct (nonempty prev); [|reflexivity].
        cbn [filter]. now rewrite is_total_total_line. }
      f_equal.
      assert (map (fun t => total_line (title_count t (row :: rest)) t)
                  (filter (fun x => negb (x =? CHECKTITLE row) &&
                                    (nonempty x && negb (x =? prev)))
                          (distinct (titles rest)))
              = map (fun t => total_line (title_count t rest) t)
                    (filter (fun t => nonempty t && negb (t =? CHECKTITLE row))
                            (distinct (titles rest)))) as Htail.
      { rewrite (filter_ext_in
                   (fun x => negb (x =? CHECKTITLE row) && (nonempty x && negb (x =? prev)))
                   (fun t => nonempty t && negb (t =? CHECKTITLE row))).
        2:{ intros x Hx. apply (proj1 (in_distinct _ _)) in Hx.
            assert (x <> prev) as Nx by (intros ->; apply Habs; now right).
            apply String.eqb_neq in Nx. rewrite Nx.
            destruct (nonempty x), (x =? CHECKTITLE row); reflexivity. }
        apply map_ext_in. intros t Ht. apply filter_In in Ht as [_ Ht].
        apply andb_true_iff in Ht as [_ Ht]. apply negb_true_iff, String.eqb_neq in Ht.
        now rewrite title_count_cons_other. }
      destruct (nonempty (CHECKTITLE row)); cbn [map app].
      * rewrite title_count_cons_same, Htail. reflexivity.
      * symmetry. exact Htail.
Qed.

(** Sorted rows have equal titles next to each other, and an empty title can
    only come first. *)
Lemma row_le_title a b :
  row_le a b -> String.leb (CHECKTITLE a) (CHECKTITLE b) = true.
Proof.
  unfold row_le, String.ltb, String.leb. intros [H|[-> _]].
  - destruct (String.compare (CHECKTITLE a) (CHECKTITLE b)); [reflexivity..|discriminate].
  - pose proof (proj2 (String_as_OT.cmp_eq (CHECKTITLE b) (CHECKTITLE b)) eq_refl) as E.
    unfold String_as_OT.cmp in E. now rewrite E.
Qed.

Lemma leb_sorted_contiguous l :
  StronglySorted (fun a b => String.leb a b = true) l -> contiguous l.
Proof.
  induction 1 as [|x xs Hs IH Hx]; [exact I|]. cbn [contiguous]. split; [|exact IH].
  destruct xs as [|y ys]; [intros []|]. intros Hin. cbn [hd_error]. f_equal.
  inversion Hx as [|? ? Hxy _]; subst.
  destruct Hin as [->|Hin]; [reflexivity|].
  inversion Hs as [|? ? _ Hy]; subst.
  rewrite Forall_forall in Hy. apply String.leb_antisym; [apply Hy, Hin | exact Hxy].
Qed.

Lemma sorted_rows_titles rows :
  sorted_rows rows ->
  StronglySorted (fun a b => String.leb a b = true) (titles rows).
Proof.
  induction 1 as [|row rest Hs IH Hrow]; cbn [titles map]; constructor; [exact IH|].
  rewrite Forall_forall in *. intros t Ht. apply in_map_iff in Ht as (r & <- & Hr).
  apply row_le_title, Hrow, Hr.
Qed.

Lemma sorted_rows_contiguous rows :
  sorted_rows rows -> contiguous (EmptyString :: titles rows).
Proof.
  intros Hs. apply leb_sorted_contiguous. constructor; [now apply sorted_rows_titles|].
  apply Forall_forall. intros t _. now destruct t.
Qed.

(** The order of the rows is transitive, so it is enough that each row is at
    most the next one. *)
Lemma row_le_trans a b c : row_le a b -> row_le b c -> row_le a c.
Proof.
  unfold row_le, String.ltb. intros [Hab|[Eab Iab]] [Hbc|[Ebc Ibc]].
  - left.
    destruct (String.compare (CHECKTITLE a) (CHECKTITLE b)) eqn:C1; try discriminate.
    destruct (String.compare (CHECKTITLE b) (CHECKTITLE c)) eqn:C2; try discriminate.
    apply String_as_OT.cmp_lt in C1, C2.
    pose proof (String_as_OT.lt_trans _ _ _ C1 C2) as C3.
    apply String_as_OT.cmp_lt in C3. unfold String_as_OT.cmp in C3. now rewrite C3.
  - left. now rewrite <- Ebc.
  - left. now rewrite Eab.
  - right. split; [congruence | lia].
Qed.

Lemma sorted_rows_adjacent rows : Sorted row_le rows <-> sorted_rows rows.
Proof.
  split.
  - apply Sorted_StronglySorted. intros a b c. apply row_le_trans.
  - apply StronglySorted_Sorted.
Qed.

Lemma fcs_str_cases fcs :
  fcs_str fcs =
  if String.eqb fcs EmptyString then EmptyString else ", " ++ substring 0 6 fcs.
Proof. destruct fcs; reflexivity. Qed.

(** X19: what the summary of sorted rows holds whatever the titles are.  For
    rows sorted by title and record id, [summarise_dr_output] adds one
    "Found" line for each row, in the order of the rows, and one "Total" line
    for each distinct title other than the empty string, with the number of
    rows of that title, which are next to each other; the "Found" line of a
    row has no subtype part when the subtype is empty and has the first six
    characters of the subtype otherwise.  The rows of the empty title are
    the subject of C1 below. *)
Theorem summarise_dr_output_lines W self sess_obj_id rows st :
  da_SearchCursor W (dr_gdb_location self ++ "/REVTABLEMAIN")
                  ("SESSIONID=" ++ Py.str_int sess_obj_id) = Returns rows ->
  sorted_rows rows ->
  exists emitted,
    summarise_dr_output W self sess_obj_id st = (Returns tt, with_log st emitted) /\
    filter is_found_line emitted = map found_line rows /\
    filter is_total_line emitted =
      map (fun t => total_line (title_count t rows) t)
          (filter nonempty (distinct (titles rows))) /\
    contiguous (titles rows) /\
    forall row,
      found_line row =
      "Found " ++ ORIGINTABLE row ++
      (if String.eqb (SUBTYPE row) EmptyString then EmptyString
       else ", " ++ substring 0 6 (SUBTYPE row)) ++
      ", OBJECTID=" ++ Py.str_int (OBJECTID row) ++ ": " ++ CHECKTITLE row ++
      " (" ++ NOTES row ++ ")".
Proof.
  intros Hrows Hsorted.
  pose proof (sorted_rows_contiguous rows Hsorted) as Hc.
  eexists. split; [apply (summarise_dr_output_log W self sess_obj_id rows st Hrows)|].
  assert (forall l,
             l = (if (TmpLog.count_lines_with found_marker
                        (tmp_log_list st ++ summary_lines 0 EmptyString rows) =? 0)%nat
                  then ["No errors found."] else []) ->
             filter is_found_line l = [] /\ filter is_total_line l = []) as Hlast.
  { intros l ->. destruct (_ =? 0)%nat; split; reflexivity. }
  destruct (Hlast _ eq_refl) as [Hf Ht].
  rewrite !filter_app, Hf, Ht, !app_nil_r. clear Hlast Hf Ht.
  split; [apply found_lines_of_summary|].
  split.
  - rewrite (total_lines_of_summary rows 0 EmptyString Hc). cbn [nonempty String.eqb negb app].
    f_equal. apply filter_ext. intros t. unfold nonempty.
    destruct t; reflexivity.
  - split; [exact (proj2 Hc)|].
    intros row. unfold found_line, found_marker, encode_if_unicode.
    now rewrite fcs_str_cases.
Qed.

Lemma sample_rows_sorted : sorted_rows sample_rows.
Proof.
  apply sorted_rows_adjacent. unfold sample_rows.
  repeat first [apply Sorted_cons | apply Sorted_nil | apply HdRel_cons | apply HdRel_nil].
  all: first [left; reflexivity | right; split; [reflexivity | cbn; lia]].
Qed.

Lemma summarise_dr_output_lines_witness :
  exists emitted,
    summarise_dr_output (sample_world no_file (fun _ => None) sample_rows None None)
                        sample_bot 1 sample_state
      = (Returns tt, with_log sample_state emitted) /\
    filter is_found_line emitted = map found_line sample_rows /\
    filter is_total_line emitted =
      map (fun t => total_line (title_count t sample_rows) t)
          (filter nonempty (distinct (titles sample_rows))) /\
    contiguous (titles sample_rows) /\
    forall row,
      found_line row =
      "Found " ++ ORIGINTABLE row ++
      (if String.eqb (SUBTYPE row) EmptyString then EmptyString
       else ", " ++ substring 0 6 (SUBTYPE row)) ++
      ", OBJECTID=" ++ Py.str_int (OBJECTID row) ++ ": " ++ CHECKTITLE row ++
      " (" ++ NOTES row ++ ")".
Proof.
  apply (summarise_dr_output_lines
           (sample_world no_file (fun _ => None) sample_rows None None)
           sample_bot 1 sample_rows sample_state).
  - reflexivity.
  - exact sample_rows_sorted.
Defined.

(** The lines of the sample rows. *)
Example summarise_sample_rows :
  summarise_log sample_rows [] =
  ["Found roads, motorw, OBJECTID=12: Duplicate geometry (same as 11)";
   "Found roads, OBJECTID=40: Duplicate geometry (same as 39)";
   "Total 2 DRBot hits for Duplicate geometry" ++ NL;
   "Found places, town, OBJECTID=3: Invalid name (empty name)";
   "Total 1 DRBot hits for Invalid name" ++ NL].
Proof. reflexivity. Qed.

(** C1: the rows of a check with an empty title.  They are sorted rows with
    one distinct title; the loop counts the row and writes its "Found" line,
    but the empty string is also the value of [prev_check] before the first
    row, so the test before the last total takes the title for "no row yet"
    and the "Total" line of the title is not written. *)
Lemma untitled_rows_get_no_total :
  sorted_rows untitled_rows /\
  distinct (titles untitled_rows) = [EmptyString] /\
  summarise_log untitled_rows [] = ["Found roads, OBJECTID=7:  (no name)"] /\
  filter is_total_line (summarise_log untitled_rows []) = [] /\
  summarise_dr_output (sample_world no_file (fun _ => None) untitled_rows None None)
                      sample_bot 1 sample_state
    = (Returns tt, with_log sample_state ["Found roads, OBJECTID=7:  (no name)"]).
Proof.
  split; [repeat constructor|]. repeat split.
Qed.

(** * Further properties *)

(** ** What every computation of a run keeps *)

Section Steps.

Variable R : state -> state -> Prop.
Hypothesis R_refl : forall st, R st st.
Hypothesis R_trans : forall a b c, R a b -> R b c -> R a c.

Lemma steps_ret {A} (a : A) : steps R (ret a).
Proof. intros st. apply R_refl. Qed.

Lemma steps_raise {A} (e : exn) : steps R (@raise A e).
Proof. intros st. apply R_refl. Qed.

Lemma steps_lift {A} (o : outcome A) : steps R (lift_outcome o).
Proof. intros st. apply R_refl. Qed.

Lemma steps_isdir p : steps R (isdir p).
Proof. intros st. apply R_refl. Qed.

Lemma steps_get_db : steps R get_db.
Proof. intros st. apply R_refl. Qed.

Lemma steps_get_lines : steps R TmpLog.get_lines.
Proof. intros st. apply R_refl. Qed.

Lemma steps_bind {A B} (c : M A) (k : A -> M B) :
  steps R c -> (forall a, steps R (k a)) -> steps R (bind c k).
Proof.
  intros Hc Hk st. specialize (Hc st). unfold bind.
  destruct (c st) as [[a|e] st1]; cbn [snd] in *; [|exact Hc].
  eapply R_trans; [exact Hc | apply Hk].
Qed.

Lemma steps_try {A} (c : M A) (h : exn -> option (M A)) :
  steps R c -> (forall e k, h e = Some k -> steps R k) -> steps R (try_except c h).
Proof.
  intros Hc Hh st. specialize (Hc st). unfold try_except.
  destruct (c st) as [[a|e] st1]; cbn [snd] in *; [exact Hc|].
  destruct (h e) as [k|] eqn:Hk; [|exact Hc].
  eapply R_trans; [exact Hc | apply (Hh e k Hk)].
Qed.

End Steps.

Lemma run_rel_refl P st : run_rel P st st.
Proof.
  repeat split.
  - exists []. now rewrite app_nil_r.
  - exists []. now rewrite app_nil_r.
  - apply incl_refl.
Qed.

Lemma run_rel_trans P a b c : run_rel P a b -> run_rel P b c -> run_rel P a c.
Proof.
  intros ((e1 & E1 & F1) & (l1 & L1) & D1 & B1) ((e2 & E2 & F2) & (l2 & L2) & D2 & B2).
  repeat split.
  - exists (e1 ++ e2)%list. rewrite E2, E1, <- app_assoc. split; [reflexivity|].
    now rewrite forallb_app, F1, F2.
  - exists (l1 ++ l2)%list. now rewrite L2, L1, <- app_assoc.
  - eapply incl_tran; eauto.
  - congruence.
Qed.

Lemma run_rel_weaken (P Q : event -> bool) st st' :
  (forall ev, P ev = true -> Q ev = true) -> run_rel P st st' -> run_rel Q st st'.
Proof.
  intros HPQ ((evs & E & F) & L & D & B). repeat split; auto.
  exists evs. split; [exact E|]. rewrite forallb_forall in *. auto.
Qed.

Lemma rr_emit P ev : P ev = true -> steps (run_rel P) (emit ev).
Proof.
  intros H st. cbn. repeat split.
  - exists [ev]. cbn. now rewrite H.
  - exists []. now rewrite app_nil_r.
  - apply incl_refl.
Qed.

Lemma rr_call P ev r : P ev = true -> steps (run_rel P) (call ev r).
Proof.
  intros H. unfold call.
  apply (steps_bind _ (run_rel_trans P)); [now apply rr_emit|].
  intros _. destruct r; [apply steps_raise | apply steps_ret]; apply run_rel_refl.
Qed.

Lemma rr_log P msg : steps (run_rel P) (TmpLog.log msg).
Proof.
  intros st. cbn. repeat split.
  - exists []. now rewrite app_nil_r.
  - exists [msg]. reflexivity.
  - apply incl_refl.
Qed.

Lemma rr_add_dir P p : steps (run_rel P) (add_dir p).
Proof.
  intros st. cbn. repeat split.
  - exists []. now rewrite app_nil_r.
  - exists []. now rewrite app_nil_r.
  - apply incl_tl, incl_refl.
Qed.

Ltac rr_steps P :=
  repeat first
    [ match goal with H : _ |- _ => solve [apply H] end
    | apply rr_call; solve [auto]
    | apply rr_emit; solve [auto]
    | apply rr_log
    | apply rr_add_dir
    | apply (steps_ret _ (run_rel_refl P))
    | apply (steps_raise _ (run_rel_refl P))
    | apply (steps_lift _ (run_rel_refl P))
    | apply (steps_isdir _ (run_rel_refl P))
    | apply (steps_get_db _ (run_rel_refl P))
    | apply (steps_get_lines _ (run_rel_refl P))
    | apply (steps_bind _ (run_rel_trans P)); [|intros ?]
    | apply (steps_try _ (run_rel_trans P));
      [|let e := fresh "e" in let k := fresh "k" in let H := fresh "H" in
        intros e k H; unfold any_exception in H; try destruct e;
        first [discriminate H | injection H as <-]]
    | match goal with
      | |- steps _ (if ?b then _ else _) => destruct b
      | |- steps _ (match ?x with _ => _ end) => destruct x
      end ].

Section RunInvariant.

Variable W : World.
Variable self : DRBot.
Variable P : event -> bool.
Hypothesis P_message : forall s, P (AddMessage s) = true.
Hypothesis P_print : forall s, P (Print s) = true.
Hypothesis P_copytree : forall a b, P (Copytree a b) = true.
Hypothesis P_create : forall a b, P (CreateFileGDB a b) = true.
Hypothesis P_enable : forall a, P (EnableDataReviewer a) = true.
Hypothesis P_session : forall a b c, P (CreateReviewerSession a b c) = true.
Hypothesis P_open : forall a, P (OpenRead a) = true.

Lemma rr_set_msg s : steps (run_rel P) (set_msg s).
Proof. apply rr_emit, P_message. Qed.

Lemma rr_load_rulefiles rules : steps (run_rel P) (load_rulefiles W rules).
Proof.
  pose proof rr_set_msg. unfold load_rulefiles. rr_steps P.
Qed.

Lemma rr_make_dr_gdb : steps (run_rel P) (make_dr_gdb W self).
Proof.
  pose proof rr_set_msg.
  unfold make_dr_gdb, copy_template, create_empty_gdb. rr_steps P.
Qed.

Lemma rr_prep_dr_ws session_name : steps (run_rel P) (prep_dr_ws W self session_name).
Proof.
  pose proof rr_set_msg. pose proof rr_make_dr_gdb.
  unfold prep_dr_ws. rr_steps P.
Qed.

Lemma rr_summarise_dr_output sess_obj_id :
  steps (run_rel P) (summarise_dr_output W self sess_obj_id).
Proof.
  intros st. unfold summarise_dr_output, lift_outcome, bind.
  destruct (da_SearchCursor W _ _) as [rows|e]; [|apply run_rel_refl].
  cbn. repeat split.
  - exists []. now rewrite app_nil_r.
  - rewrite summarise_log_lines. eexists. reflexivity.
  - apply incl_refl.
Qed.

Hypothesis P_batch : forall a b c d, P (ExecuteReviewerBatchJob a b c d) = true.

Lemma rr_run_rulefiles sess rulefiles :
  steps (run_rel P) (run_rulefiles W self sess rulefiles).
Proof.
  pose proof rr_set_msg.
  induction rulefiles as [|rulefile rest IH]; cbn [run_rulefiles]; rr_steps P.
Qed.

Lemma rr_checks rulefiles session_name :
  steps (run_rel P) (checks W self rulefiles session_name).
Proof.
  pose proof rr_set_msg. pose proof rr_prep_dr_ws.
  pose proof rr_run_rulefiles. pose proof rr_summarise_dr_output.
  unfold checks. rr_steps P.
Qed.

End RunInvariant.

(** ** The calls, the log and the directories of [runDR] *)

Lemma inner_events_exclude evs :
  forallb inner_event evs = true ->
  existsb is_checkout evs = false /\ existsb is_checkin evs = false /\
  existsb is_rmtree evs = false.
Proof.
  induction evs as [|ev evs IH]; [auto|]. cbn [forallb existsb]. intros H.
  apply andb_true_iff in H as [Hev Hevs]. destruct (IH Hevs) as (-> & -> & ->).
  destruct ev; try discriminate Hev; auto.
Qed.

Lemma inner_load_rulefiles W rules : steps (run_rel inner_event) (load_rulefiles W rules).
Proof. apply rr_load_rulefiles; reflexivity. Qed.

Lemma inner_checks W self rulefiles session_name :
  steps (run_rel inner_event) (checks W self rulefiles session_name).
Proof. apply rr_checks; reflexivity. Qed.

(** X1: the licence in a run of [runDR]: the first call of the run is the
    check-out and there is no other; when the run returns without a value
    its last call is the check-in and there is no other; when it returns 1
    or raises, there is no check-in at all. *)
Theorem runDR_licence W self rules sess_keywd st :
  exists evs,
    events (snd (runDR W self rules sess_keywd st)) =
      (events st ++ CheckOutExtension "datareviewer" :: evs)%list /\
    existsb is_checkout evs = false /\
    (fst (runDR W self rules sess_keywd st) = Returns None ->
     exists before,
       evs = (before ++ [CheckInExtension "datareviewer"])%list /\
       existsb is_checkin before = false) /\
    (fst (runDR W self rules sess_keywd st) <> Returns None ->
     existsb is_checkin evs = false).
Proof.
  rewrite runDR_unfold.
  set (st1 := with_events (with_log st ["Start time: " ++ start_time W])
                [CheckOutExtension "datareviewer";
                 AddMessage ("Loading rule file(s) from " ++ rules ++ "...")]).
  pose proof (inner_load_rulefiles W rules st1) as ((el & El & Fl) & _).
  destruct (load_rulefiles W rules st1) as [[[v|rulefiles]|e] st2]; cbn [snd fst] in *.
  - (* return 1 *)
    exists (AddMessage ("Loading rule file(s) from " ++ rules ++ "...") :: el).
    destruct (inner_events_exclude el Fl) as (Ho & Hi & _).
    rewrite El. cbn [st1 events with_events with_log]. rewrite <- app_assoc.
    repeat split; try (intros; cbn [existsb is_checkout is_checkin orb]; assumption).
    intros [=].
  - (* the checks are run *)
    pose proof (inner_checks W self rulefiles sess_keywd st2) as ((ec & Ec & Fc) & _).
    destruct (checks W self rulefiles sess_keywd st2) as [[u|exc] s]; cbn [snd] in *.
    + exists (AddMessage ("Loading rule file(s) from " ++ rules ++ "...") ::
              el ++ ec ++ [CheckInExtension "datareviewer"])%list.
      destruct (inner_events_exclude el Fl) as (Ho & Hi & _).
      destruct (inner_events_exclude ec Fc) as (Ho' & Hi' & _).
      cbn [events with_events with_log]. rewrite Ec, El.
      cbn [st1 events with_events with_log]. rewrite <- !app_assoc.
      split; [reflexivity|]. split.
      { cbn [existsb is_checkout orb]. now rewrite !existsb_app, Ho, Ho'. }
      split; [|intros H; now contradiction H].
      intros _. exists (AddMessage ("Loading rule file(s) from " ++ rules ++ "...") ::
                        el ++ ec)%list.
      split; [cbn [app]; now rewrite <- app_assoc|].
      cbn [existsb is_checkin orb]. now rewrite existsb_app, Hi, Hi'.
    + exists (AddMessage ("Loading rule file(s) from " ++ rules ++ "...") ::
              el ++ ec ++
              [AddMessage ("Exception during DRBot " ++ str_exn W exc);
               AddMessage (format_exc W exc);
               CheckInExtension "datareviewer"])%list.
      destruct (inner_events_exclude el Fl) as (Ho & Hi & _).
      destruct (inner_events_exclude ec Fc) as (Ho' & Hi' & _).
      cbn [events with_events with_log]. rewrite Ec, El.
      cbn [st1 events with_events with_log]. rewrite <- !app_assoc.
      split; [reflexivity|]. split.
      { cbn [existsb is_checkout orb]. now rewrite !existsb_app, Ho, Ho'. }
      split; [|intros H; now contradiction H].
      intros _. exists (AddMessage ("Loading rule file(s) from " ++ rules ++ "...") ::
                        el ++ ec ++
                        [AddMessage ("Exception during DRBot " ++ str_exn W exc);
                         AddMessage (format_exc W exc)])%list.
      split; [cbn [app]; now rewrite <- !app_assoc|].
      cbn [existsb is_checkin orb]. now rewrite !existsb_app, Hi, Hi'.
  - (* the rule-loading step raises *)
    exists (AddMessage ("Loading rule file(s) from " ++ rules ++ "...") :: el).
    destruct (inner_events_exclude el Fl) as (Ho & Hi & _).
    rewrite El. cbn [st1 events with_events with_log]. rewrite <- app_assoc.
    repeat split; try (intros; cbn [existsb is_checkout is_checkin orb]; assumption).
    intros [=].
Qed.

Lemma runDR_run_rel W self rules sess_keywd :
  steps (run_rel run_event) (runDR W self rules sess_keywd).
Proof.
  assert (forall r, steps (run_rel run_event) (load_rulefiles W r)) as Hload
    by (intros; apply rr_load_rulefiles; reflexivity).
  assert (forall rf n, steps (run_rel run_event) (checks W self rf n)) as Hchecks
    by (intros; apply rr_checks; reflexivity).
  assert (forall s, steps (run_rel run_event) (set_msg s)) as Hmsg
    by (intros; apply rr_emit; reflexivity).
  unfold runDR. rr_steps run_event.
Qed.

Lemma run_events_exclude evs :
  forallb run_event evs = true ->
  existsb is_rmtree evs = false /\ existsb is_write_file evs = false /\
  existsb is_smtp_call evs = false.
Proof.
  induction evs as [|ev evs IH]; [auto|]. cbn [forallb existsb]. intros H.
  apply andb_true_iff in H as [Hev Hevs]. destruct (IH Hevs) as (-> & -> & ->).
  destruct ev; try discriminate Hev; auto.
Qed.

(** X2: [runDR] never deletes: every directory that exists before the run exists
    after it, whether the run returns or raises, and the run makes no call
    that deletes a tree, writes a file or sends mail. *)
Theorem runDR_keeps_directories W self rules sess_keywd st :
  incl (dirs st) (dirs (snd (runDR W self rules sess_keywd st))) /\
  exists evs,
    events (snd (runDR W self rules sess_keywd st)) = (events st ++ evs)%list /\
    existsb is_rmtree evs = false /\
    existsb is_write_file evs = false /\
    existsb is_smtp_call evs = false.
Proof.
  destruct (runDR_run_rel W self rules sess_keywd st) as ((evs & E & F) & _ & D & _).
  split; [exact D|]. exists evs. split; [exact E|]. now apply run_events_exclude.
Qed.

(** X3: [runDR] only adds to the log, and the first line it adds is the start
    time, whatever happens afterwards; the database setting of the object is
    left as it is. *)
Theorem runDR_log_grows W self rules sess_keywd st :
  (exists lines,
     tmp_log_list (snd (runDR W self rules sess_keywd st)) =
     (tmp_log_list st ++ ("Start time: " ++ start_time W)%string :: lines)%list) /\
  self_db (snd (runDR W self rules sess_keywd st)) = self_db st.
Proof.
  split.
  - unfold runDR. rewrite bind_log.
    match goal with
    | |- context [snd (?c (with_log st ?l))] =>
        assert (steps (run_rel run_event) c) as Hc
    end.
    { assert (forall r, steps (run_rel run_event) (load_rulefiles W r)) as Hload
        by (intros; apply rr_load_rulefiles; reflexivity).
      assert (forall rf n, steps (run_rel run_event) (checks W self rf n)) as Hchecks
        by (intros; apply rr_checks; reflexivity).
      assert (forall s, steps (run_rel run_event) (set_msg s)) as Hmsg
        by (intros; apply rr_emit; reflexivity).
      rr_steps run_event. }
    destruct (Hc (with_log st ["Start time: " ++ start_time W])) as (_ & (lines & L) & _).
    exists lines. rewrite L. cbn [tmp_log_list with_log]. now rewrite <- app_assoc.
  - now destruct (runDR_run_rel W self rules sess_keywd st) as (_ & _ & _ & B).
Qed.

(** ** The whole loop over the rule files *)

Lemma with_events_log st evs lines :
  with_events (with_log st lines) evs = with_log (with_events st evs) lines.
Proof. reflexivity. Qed.

(** X4: when the engine accepts each rule file or rejects it with code 732, the
    loop returns normally and has run every rule file once, in the order of
    the list, and the log has one warning for each rejected rule file, in the
    same order. *)
Theorem run_rulefiles_all_run W self sess rulefiles st :
  Forall (fun rulefile =>
            ExecuteReviewerBatchJob_Reviewer W (dr_gdb_location self) sess rulefile
              (self_db st) = None \/
            rejected_732 W self sess (self_db st) rulefile) rulefiles ->
  run_rulefiles W self sess rulefiles st =
  (Returns tt,
   with_log
     (with_events st (flat_map (turn_calls self sess (self_db st)) rulefiles))
     (map (fun rulefile => "Found execution error: File " ++ rulefile ++ " not found.")
          (filter (rejected_732b W self sess (self_db st)) rulefiles))).
Proof.
  revert st. induction rulefiles as [|rulefile rest IH]; intros st Hall.
  - cbn [run_rulefiles flat_map filter map]. unfold ret.
    now rewrite with_events_nil, with_log_nil.
  - inversion Hall as [|? ? Hrf Hrest]; subst.
    pose proof (run_rulefiles_step W self sess rulefile rest st) as Hstep.
    cbn zeta in Hstep. rewrite Hstep. clear Hstep.
    cbn [flat_map filter]. unfold rejected_732b at 1.
    destruct Hrf as [Hok | (m & Hm & Hparse)].
    + rewrite Hok. rewrite IH by exact Hrest.
      cbn [self_db with_events]. rewrite with_events_app. reflexivity.
    + rewrite Hm, Hparse. cbn [Z.eqb Pos.eqb map]. rewrite IH by exact Hrest.
      cbn [self_db with_events with_log].
      rewrite with_events_log, with_events_app, with_log_app. reflexivity.
Qed.

Lemma run_rulefiles_all_run_witness :
  run_rulefiles (sample_world no_file (engine_failing msg_732) [] None None)
                sample_bot "Session 1 : s" ["a.rbj"; "b.rbj"; "c.rbj"] sample_state =
  (Returns tt,
   with_log
     (with_events sample_state
        (flat_map (turn_calls sample_bot "Session 1 : s" (self_db sample_state))
                  ["a.rbj"; "b.rbj"; "c.rbj"]))
     ["Found execution error: File b.rbj not found."]).
Proof.
  apply (run_rulefiles_all_run
           (sample_world no_file (engine_failing msg_732) [] None None)
           sample_bot "Session 1 : s" ["a.rbj"; "b.rbj"; "c.rbj"] sample_state).
  apply Forall_cons; [left; reflexivity|].
  apply Forall_cons; [right; exists msg_732; split; reflexivity|].
  apply Forall_cons; [left; reflexivity | apply Forall_nil].
Defined.

(** ** [report_output] *)

(** [send_email] always returns, and its first call is the connection to the
    relay. *)
Lemma send_email_connects W sender email_lst subject count_flag st :
  exists evs,
    TmpLog.send_email W sender email_lst subject count_flag st =
    (Returns tt, with_events st (SmtpConnect email_server :: evs)) /\
    existsb is_write_file evs = false.
Proof.
  unfold TmpLog.send_email, TmpLog.get_lines. unfold bind at 1. cbv zeta.
  unfold try_except, any_exception, call, print, bind, emit, ret, raise.
  destruct (SMTP W email_server); [|destruct (sendmail W _ _ _); [|destruct (smtp_quit W)]];
    rewrite ?with_events_app; eexists; split; reflexivity.
Qed.

(** X5: when the log file can be written, or none is asked for, [report_output]
    returns normally and leaves the log as it is; it writes a file exactly
    when a file name is given, and it calls the mail relay exactly when there
    is a recipient and either mail is always sent or a line of the log
    contains "Found". *)
Theorem report_output_decides W logfile mails subj always_send_mail st :
  logfile = EmptyString \/ open_write W logfile = None ->
  exists evs,
    report_output W logfile mails subj always_send_mail st =
      (Returns tt, with_events st evs) /\
    (existsb is_write_file evs = true <-> logfile <> EmptyString) /\
    (existsb is_smtp_call evs = true <->
     mails <> [] /\ mails <> [EmptyString] /\
     (always_send_mail = true \/
      TmpLog.contains_line_with found_marker (tmp_log_list st) = true)).
Proof.
  intros Hwrite. unfold report_output.
  set (mails' := match mails with
                 | [m] => if String.eqb m EmptyString then [] else mails
                 | _ => mails
                 end).
  assert ((0 <? List.length mails')%nat = true <-> mails <> [] /\ mails <> [EmptyString])
    as Hmails.
  { subst mails'. destruct mails as [|m [|m' ms]]; cbn.
    - split; [discriminate | intros [H _]; congruence].
    - destruct (String.eqb_spec m EmptyString) as [->|N]; cbn.
      + split; [discriminate | intros [_ H]; congruence].
      + split; [|reflexivity]. intros _. split; [discriminate | congruence].
    - split; [|reflexivity]. intros _. split; discriminate. }
  assert (exists e1,
             (if (0 <? String.length logfile)%nat
              then TmpLog.write_to_file W logfile else ret tt) st
             = (Returns tt, with_events st e1) /\
             tmp_log_list (with_events st e1) = tmp_log_list st /\
             existsb is_smtp_call e1 = false /\
             (existsb is_write_file e1 = true <-> logfile <> EmptyString))
    as (e1 & Hstep1 & Hlog1 & Hs1 & Hw1).
  { destruct logfile as [|c l]; cbn [String.length Nat.ltb Nat.leb].
    - exists []. unfold ret. rewrite with_events_nil.
      repeat split; try reflexivity; [discriminate | congruence].
    - destruct Hwrite as [Hw|Hw]; [discriminate|].
      unfold TmpLog.write_to_file, TmpLog.get_lines, call, bind, emit, ret.
      rewrite Hw. eexists. split; [reflexivity|].
      repeat split; try reflexivity; discriminate. }
  rewrite (bind_returns _ _ _ _ _ Hstep1).
  unfold TmpLog.get_lines. unfold bind at 1. rewrite Hlog1.
  destruct (0 <? List.length mails')%nat eqn:Hlen.
  - (* there is a recipient *)
    destruct always_send_mail; cbn [negb andb].
    + destruct (send_email_connects W email_sender mails' ("DRBot Run, " ++ subj)
                  found_marker (with_events st e1)) as (e2 & -> & Hw2).
      rewrite with_events_app. eexists. split; [reflexivity|].
      split.
      * rewrite existsb_app. cbn [existsb is_write_file orb].
        rewrite Hw2, orb_false_r. exact Hw1.
      * rewrite existsb_app. cbn [existsb is_smtp_call orb]. rewrite orb_true_r.
        split; [|reflexivity]. intros _.
        destruct (proj1 Hmails eq_refl). auto.
    + destruct (TmpLog.contains_line_with found_marker (tmp_log_list st)) eqn:Hc;
        cbn [andb].
      * destruct (send_email_connects W email_sender mails' ("DRBot Run, " ++ subj)
                    found_marker (with_events st e1)) as (e2 & -> & Hw2).
        rewrite with_events_app. eexists. split; [reflexivity|].
        split.
        -- rewrite existsb_app. cbn [existsb is_write_file orb].
           rewrite Hw2, orb_false_r. exact Hw1.
        -- rewrite existsb_app. cbn [existsb is_smtp_call orb]. rewrite orb_true_r.
           split; [|reflexivity]. intros _.
           destruct (proj1 Hmails eq_refl). auto.
      * unfold ret. exists e1. split; [reflexivity|]. split; [exact Hw1|].
        rewrite Hs1. split; [discriminate|].
        intros (_ & _ & [H|H]); discriminate H.
  - (* there is none *)
    rewrite !andb_false_r. unfold ret.
    exists e1. split; [reflexivity|]. split; [exact Hw1|].
    rewrite Hs1. split; [discriminate|].
    intros (H1 & H2 & _). assert (false = true) by (apply Hmails; auto). discriminate.
Qed.

Lemma report_output_decides_witness :
  exists evs,
    report_output (sample_world no_file (fun _ => None) [] None None)
                  "log.txt" ["user@email.org"] "a.rbj" false
                  (with_log sample_state ["Found roads, OBJECTID=7: t (n)"]) =
      (Returns tt, with_events (with_log sample_state ["Found roads, OBJECTID=7: t (n)"]) evs) /\
    (existsb is_write_file evs = true <-> "log.txt" <> EmptyString) /\
    (existsb is_smtp_call evs = true <->
     ["user@email.org"] <> [] /\ ["user@email.org"] <> [EmptyString] /\
     (false = true \/
      TmpLog.contains_line_with found_marker
        (tmp_log_list (with_log sample_state ["Found roads, OBJECTID=7: t (n)"])) = true)).
Proof.
  apply (report_output_decides
           (sample_world no_file (fun _ => None) [] None None)
           "log.txt" ["user@email.org"] "a.rbj" false
           (with_log sample_state ["Found roads, OBJECTID=7: t (n)"])).
  right. reflexivity.
Defined.

(** X6: a log file that cannot be written makes [report_output] raise the error
    of the write, after the attempt and before any mail is sent. *)
Theorem report_output_write_failure W logfile mails subj always_send_mail st e :
  logfile <> EmptyString ->
  open_write W logfile = Some e ->
  report_output W logfile mails subj always_send_mail st =
  (Raises e,
   with_events st
     [WriteFile logfile (map (fun logline => logline ++ NL) (tmp_log_list st))]).
Proof.
  intros Hname Hw. unfold report_output.
  destruct logfile as [|c l]; [congruence|]. cbn [String.length Nat.ltb Nat.leb].
  apply bind_raises.
  unfold TmpLog.write_to_file, TmpLog.get_lines, call, bind, emit, ret, raise.
  now rewrite Hw.
Qed.

Lemma report_output_write_failure_witness :
  report_output read_only_world "log.txt" ["user@email.org"] "a.rbj" true
                (with_log sample_state ["Done"]) =
  (Raises (IOError 13 "Permission denied"),
   with_events (with_log sample_state ["Done"])
     [WriteFile "log.txt" ["Done" ++ NL]]).
Proof.
  apply (report_output_write_failure read_only_world "log.txt" ["user@email.org"]
           "a.rbj" true (with_log sample_state ["Done"])
           (IOError 13 "Permission denied")).
  - discriminate.
  - reflexivity.
Defined.

(** ** The workspace and the session *)

(** X7: [make_dr_gdb] never raises.  When it returns without a value the
    workspace directory exists; it returns a value only when the empty file
    geodatabase could not be created or enabled, and the value is 1. *)
Theorem make_dr_gdb_result W self st :
  exists r st',
    make_dr_gdb W self st = (Returns r, st') /\
    (r = None -> existsb (String.eqb (dr_gdb_location self)) (dirs st') = true) /\
    (forall v, r = Some v ->
       v = 1%Z /\
       (CreateFileGDB_management W (os_path_dirname W (dr_gdb_location self))
                                   (os_path_basename W (dr_gdb_location self)) <> None \/
        EnableDataReviewer_Reviewer W (dr_gdb_location self) <> None)).
Proof.
  unfold make_dr_gdb. unfold set_msg. rewrite bind_emit.
  unfold isdir at 1. unfold bind at 1.
  set (st1 := with_events st [AddMessage "Making DR gdb..."]).
  assert (exists u st2,
             (if existsb (String.eqb (template_dr_gdb self)) (dirs st1)
              then copy_template W self else ret tt) st1 = (Returns u, st2))
    as (u & st2 & Hcopy).
  { destruct (existsb _ (dirs st1));
      [apply copy_template_never_raises | apply (nr_ret tt)]. }
  rewrite (bind_returns _ _ _ _ _ Hcopy).
  unfold isdir, bind at 1.
  destruct (existsb (String.eqb (dr_gdb_location self)) (dirs st2)) eqn:Hd; cbn [negb].
  - exists None, st2. split; [reflexivity|]. split; [intros _; exact Hd | discriminate].
  - rewrite bind_emit. unfold create_empty_gdb, try_except, any_exception, call.
    unfold add_dir, set_msg, bind, emit, ret, raise.
    destruct (CreateFileGDB_management W _ _) as [e1|].
    + eexists _, _. split; [reflexivity|]. split; [discriminate|].
      intros v [= <-]. split; [reflexivity | left; discriminate].
    + destruct (EnableDataReviewer_Reviewer W _) as [e2|].
      * eexists _, _. split; [reflexivity|]. split; [discriminate|].
        intros v [= <-]. split; [reflexivity | right; discriminate].
      * eexists _, _. split; [reflexivity|]. split; [|discriminate].
        intros _. cbn [dirs with_events existsb]. now rewrite String.eqb_refl.
Qed.

(** When [prep_dr_ws] raises, and what. *)
Lemma prep_dr_ws_raises W self session_name st e :
  (exists st', prep_dr_ws W self session_name st = (Raises e, st')) <->
  (CreateReviewerSession_Reviewer W (dr_gdb_location self) session_name
     (Some "Session 1 : empty") = Some e /\
   forall m, e <> ExecuteError m).
Proof.
  unfold prep_dr_ws. unfold set_msg at 1. rewrite bind_emit.
  unfold isdir at 1. unfold bind at 1.
  set (st1 := with_events st [AddMessage "Preparing Data Reviewer Session..."]).
  assert (exists u st2,
             (if negb (existsb (String.eqb (dr_gdb_location self)) (dirs st1))
              then bind (make_dr_gdb W self) (fun _ => ret tt) else ret tt) st1
             = (Returns u, st2)) as (u & st2 & Hmake).
  { destruct (negb _); [|apply (nr_ret tt)].
    apply nr_bind; [apply make_dr_gdb_never_raises | intros _; apply nr_ret]. }
  rewrite (bind_returns _ _ _ _ _ Hmake).
  unfold set_msg at 1. rewrite bind_emit.
  unfold try_except, any_exception, call, set_msg, bind, emit, ret, raise.
  destruct (CreateReviewerSession_Reviewer W (dr_gdb_location self) session_name
              (Some "Session 1 : empty")) as [e1|].
  - destruct e1;
      try (split; [intros (st' & [= <- _]); split; [reflexivity | discriminate]
                  | intros ([= <-] & _); eexists; reflexivity]).
    split.
    + intros (st' & H).
      destruct (CreateReviewerSession_Reviewer W (dr_gdb_location self) session_name None);
        discriminate H.
    + intros ([= <-] & H). now contradiction (H message).
  - split; [intros (st' & [=]) | intros ([=] & _)].
Qed.

(** X8: the two attempts of [prep_dr_ws] to create the session.  After the
    workspace has been made if it was missing, the session is created from
    the template session.  If that succeeds, nothing else is called.  If it
    raises an [ExecuteError], the fallback is reported and the session is
    created again without a template; a failure of this second attempt is
    reported by two messages and [prep_dr_ws] returns all the same.  If the
    first attempt raises anything else, there is no second attempt and
    [prep_dr_ws] raises that exception, which is the only way it raises. *)
Theorem prep_dr_ws_session_attempts W self session_name st :
  prep_dr_ws W self session_name st =
  (let st1 := with_events st [AddMessage "Preparing Data Reviewer Session..."] in
   let st2 :=
     with_events
       (if existsb (String.eqb (dr_gdb_location self)) (dirs st) then st1
        else snd (make_dr_gdb W self st1))
       [AddMessage ("    Database: " ++ dr_gdb_location self);
        CreateReviewerSession (dr_gdb_location self) session_name
          (Some "Session 1 : empty")] in
   match CreateReviewerSession_Reviewer W (dr_gdb_location self) session_name
           (Some "Session 1 : empty") with
   | None => (Returns tt, st2)
   | Some (ExecuteError m) =>
       match CreateReviewerSession_Reviewer W (dr_gdb_location self) session_name None with
       | None =>
           (Returns tt,
            with_events st2
              [AddMessage
                 "  Couldn't create reviewer session from template, ignoring template.";
               CreateReviewerSession (dr_gdb_location self) session_name None])
       | Some exc2 =>
           (Returns tt,
            with_events st2
              [AddMessage
                 "  Couldn't create reviewer session from template, ignoring template.";
               CreateReviewerSession (dr_gdb_location self) session_name None;
               AddMessage "Problem while creating empty reviewer session: ";
               AddMessage (format_exc W exc2)])
       end
   | Some exc => (Raises exc, st2)
   end) /\
  (forall e,
     (exists st', prep_dr_ws W self session_name st = (Raises e, st')) <->
     (CreateReviewerSession_Reviewer W (dr_gdb_location self) session_name
        (Some "Session 1 : empty") = Some e /\
      forall m, e <> ExecuteError m)).
Proof.
  split; [|intros e; apply prep_dr_ws_raises].
  cbv zeta. unfold prep_dr_ws. unfold set_msg at 1. rewrite bind_emit.
  unfold isdir at 1. unfold bind at 1. cbn [dirs with_events].
  set (st1 := with_events st [AddMessage "Preparing Data Reviewer Session..."]).
  assert (forall s,
             bind (set_msg ("    Database: " ++ dr_gdb_location self))
               (fun _ =>
                  try_except
                    (call (CreateReviewerSession (dr_gdb_location self) session_name
                             (Some "Session 1 : empty"))
                          (CreateReviewerSession_Reviewer W (dr_gdb_location self)
                             session_name (Some "Session 1 : empty")))
                    (fun exc =>
                       match exc with
                       | ExecuteError _ =>
                           Some
                             (set_msg
                                "  Couldn't create reviewer session from template, ignoring template." ;;
                              try_except
                                (call (CreateReviewerSession (dr_gdb_location self)
                                         session_name None)
                                      (CreateReviewerSession_Reviewer W
                                         (dr_gdb_location self) session_name None))
                                (any_exception (fun exc2 =>
                                   set_msg "Problem while creating empty reviewer session: " ;;
                                   set_msg (format_exc W exc2))))
                       | _ => None
                       end)) s =
             match CreateReviewerSession_Reviewer W (dr_gdb_location self) session_name
                     (Some "Session 1 : empty") with
             | None =>
                 (Returns tt,
                  with_events s
                    [AddMessage ("    Database: " ++ dr_gdb_location self);
                     CreateReviewerSession (dr_gdb_location self) session_name
                       (Some "Session 1 : empty")])
             | Some (ExecuteError m) =>
                 match CreateReviewerSession_Reviewer W (dr_gdb_location self)
                         session_name None with
                 | None =>
                     (Returns tt,
                      with_events
                        (with_events s
                           [AddMessage ("    Database: " ++ dr_gdb_location self);
                            CreateReviewerSession (dr_gdb_location self) session_name
                              (Some "Session 1 : empty")])
                        [AddMessage
                           "  Couldn't create reviewer session from template, ignoring template.";
                         CreateReviewerSession (dr_gdb_location self) session_name None])
                 | Some exc2 =>
                     (Returns tt,
                      with_events
                        (with_events s
                           [AddMessage ("    Database: " ++ dr_gdb_location self);
                            CreateReviewerSession (dr_gdb_location self) session_name
                              (Some "Session 1 : empty")])
                        [AddMessage
                           "  Couldn't create reviewer session from template, ignoring template.";
                         CreateReviewerSession (dr_gdb_location self) session_name None;
                         AddMessage "Problem while creating empty reviewer session: ";
                         AddMessage (format_exc W exc2)])
                 end
             | Some exc =>
                 (Raises exc,
                  with_events s
                    [AddMessage ("    Database: " ++ dr_gdb_location self);
                     CreateReviewerSession (dr_gdb_location self) session_name
                       (Some "Session 1 : empty")])
             end) as Hsession.
  { intros s. unfold try_except, any_exception, call, set_msg, bind, emit, ret, raise.
    destruct (CreateReviewerSession_Reviewer W (dr_gdb_location self) session_name
                (Some "Session 1 : empty")) as [e1|];
      rewrite ?with_events_app; [|reflexivity].
    destruct e1; try reflexivity.
    destruct (CreateReviewerSession_Reviewer W (dr_gdb_location self) session_name None);
      rewrite ?with_events_app; reflexivity. }
  destruct (existsb (String.eqb (dr_gdb_location self)) (dirs st)); cbn [negb].
  - unfold ret at 1. unfold bind at 1. apply Hsession.
  - destruct (make_dr_gdb_never_raises W self st1) as (r & st' & Hmake).
    unfold bind at 1. unfold bind at 1. rewrite Hmake. unfold ret at 1. cbn [snd].
    apply Hsession.
Qed.

(** ** The rule files of a run *)

(** X9: a manifest whose lines, apart from the comment lines, have at least two
    characters: the rule files are those lines, in the order of the manifest,
    each resolved by [fix_path] against the directory of the manifest, and
    the only call made is the reading of the manifest. *)
Theorem load_rulefiles_manifest W rules content st :
  Py.contains ".txt" rules = true ->
  read_file W rules = Returns content ->
  (forall lin, In lin (Py.splitlines content) -> Py.slice_to 1 lin <> "#" ->
               (2 <= String.length lin)%nat) ->
  exists resolved,
    load_rulefiles W rules st =
      (Returns (Rulefiles (Some resolved)), with_events st [OpenRead rules]) /\
    map Returns resolved =
      map (fun lin => fix_path W lin (os_path_dirname W rules))
          (filter (fun lin => negb (Py.slice_to 1 lin =? "#")) (Py.splitlines content)).
Proof.
  intros Htxt Hread Hlen.
  destruct (resolve_lines_long_lines W (os_path_dirname W rules) _ Hlen)
    as (resolved & Hres & Hmap).
  exists resolved. split; [|exact Hmap].
  unfold load_rulefiles. rewrite Htxt.
  unfold try_except. rewrite bind_emit, Hread.
  unfold lift_outcome at 1. unfold bind at 1. rewrite Hres. reflexivity.
Qed.

Lemma load_rulefiles_manifest_witness :
  exists resolved,
    load_rulefiles (sample_world (fun _ => Returns manifest_with_comment)
                                 (fun _ => None) [] None None)
                   "/jobs/rules.txt" sample_state =
      (Returns (Rulefiles (Some resolved)),
       with_events sample_state [OpenRead "/jobs/rules.txt"]) /\
    map Returns resolved =
      map (fun lin =>
             fix_path (sample_world (fun _ => Returns manifest_with_comment)
                                    (fun _ => None) [] None None)
                      lin "/jobs")
          ["ruleA.rbj"; "ruleC.rbj"].
Proof.
  apply (load_rulefiles_manifest
           (sample_world (fun _ => Returns manifest_with_comment)
                         (fun _ => None) [] None None)
           "/jobs/rules.txt" manifest_with_comment sample_state).
  - reflexivity.
  - reflexivity.
  - intros lin [<-|[<-|[<-|[]]]] H; cbn; lia.
Defined.

Lemma setup_events_exclude evs :
  forallb setup_event evs = true -> existsb is_batch_job evs = false.
Proof.
  induction evs as [|ev evs IH]; [auto|]. cbn [forallb existsb]. intros H.
  apply andb_true_iff in H as [Hev Hevs]. rewrite (IH Hevs).
  destruct ev; try discriminate Hev; auto.
Qed.

Lemma setup_prep_dr_ws W self session_name :
  steps (run_rel setup_event) (prep_dr_ws W self session_name).
Proof. apply rr_prep_dr_ws; reflexivity. Qed.

(** The checks with the variable [rulefiles] unbound raise before any rule
    file is run. *)
Lemma checks_unbound_rulefiles W self session_name st :
  exists e st',
    checks W self None session_name st = (Raises e, st') /\
    run_rel setup_event st st'.
Proof.
  unfold checks. cbv zeta.
  pose proof (setup_prep_dr_ws W self session_name st) as Hprep.
  unfold bind at 1. destruct (prep_dr_ws W self session_name st) as [[[]|e] st_a];
    cbn [snd] in Hprep; [|eexists _, _; split; [reflexivity | exact Hprep]].
  unfold lift_outcome at 1. unfold bind at 1.
  destruct (SearchCursor W _ _) as [cur|e];
    [|eexists _, _; split; [reflexivity | exact Hprep]].
  destruct (last (map Some cur) None) as [sess_obj_id|];
    [|eexists _, _; split; [reflexivity | exact Hprep]].
  unfold set_msg, get_db, TmpLog.log, raise, bind, emit.
  eexists _, _. split; [reflexivity|].
  eapply run_rel_trans; [exact Hprep|]. repeat split; cbn [events tmp_log_list dirs
    self_db with_events with_log].
  - eexists. split; [reflexivity|]. reflexivity.
  - eexists. rewrite <- app_assoc. reflexivity.
  - apply incl_refl.
Qed.

Lemma load_rulefiles_unreadable W rules st errno strerror :
  Py.contains ".txt" rules = true ->
  read_file W rules = Raises (IOError errno strerror) ->
  errno <> 2%Z ->
  load_rulefiles W rules st =
  (Returns (Rulefiles None),
   with_events st
     [OpenRead rules;
      AddMessage ("ERROR reading rules " ++ rules ++ ".");
      AddMessage (format_exc W (IOError errno strerror))]).
Proof.
  intros Htxt Hread Herrno. unfold load_rulefiles. rewrite Htxt.
  unfold try_except. rewrite bind_emit, Hread.
  unfold lift_outcome at 1. unfold bind at 1.
  unfold set_msg. rewrite bind_emit.
  cbn [exc_item0_is]. apply Z.eqb_neq in Herrno. rewrite Herrno.
  rewrite bind_emit. unfold ret. rewrite !with_events_app. reflexivity.
Qed.

(** X10: a manifest that cannot be read for another reason than its absence
    (an [IOError] whose number is not 2): the read error is reported, the run
    goes on without a list of rule files, no rule file is run, and [runDR]
    returns without a value after the check-in of the licence. *)
Theorem runDR_unreadable_manifest W self rules sess_keywd st errno strerror :
  Py.contains ".txt" rules = true ->
  read_file W rules = Raises (IOError errno strerror) ->
  errno <> 2%Z ->
  fst (runDR W self rules sess_keywd st) = Returns None /\
  exists evs,
    events (snd (runDR W self rules sess_keywd st)) = (events st ++ evs)%list /\
    existsb is_batch_job evs = false /\
    In (AddMessage ("ERROR reading rules " ++ rules ++ ".")) evs /\
    In (CheckInExtension "datareviewer") evs.
Proof.
  intros Htxt Hread Herrno. rewrite runDR_unfold.
  rewrite (load_rulefiles_unreadable W rules _ errno strerror Htxt Hread Herrno).
  cbv zeta. rewrite !with_events_app. cbn [app].
  match goal with
  | |- context [checks W self None sess_keywd ?s] =>
      destruct (checks_unbound_rulefiles W self sess_keywd s)
        as (e & s' & Hchecks & ((ec & Ec & Fc) & _));
      rewrite Hchecks
  end.
  cbn [fst snd]. split; [reflexivity|].
  cbn [events with_events with_log] in *. rewrite Ec.
  eexists. split; [rewrite <- !app_assoc; reflexivity|].
  split.
  - cbn [app existsb is_batch_job orb]. rewrite existsb_app.
    rewrite (setup_events_exclude ec Fc). reflexivity.
  - split.
    + cbn [app]. do 3 right. now left.
    + cbn [app]. do 5 right. apply in_or_app. right. cbn. tauto.
Qed.

Lemma runDR_unreadable_manifest_witness :
  fst (runDR (sample_world unreadable (fun _ => None) [] None None) sample_bot
             "/jobs/rules.txt" "log.txt" sample_state) = Returns None /\
  exists evs,
    events (snd (runDR (sample_world unreadable (fun _ => None) [] None None) sample_bot
                       "/jobs/rules.txt" "log.txt" sample_state))
      = (events sample_state ++ evs)%list /\
    existsb is_batch_job evs = false /\
    In (AddMessage "ERROR reading rules /jobs/rules.txt.") evs /\
    In (CheckInExtension "datareviewer") evs.
Proof.
  apply (runDR_unreadable_manifest
           (sample_world unreadable (fun _ => None) [] None None) sample_bot
           "/jobs/rules.txt" "log.txt" sample_state 5 "Input/output error").
  - reflexivity.
  - reflexivity.
  - discriminate.
Defined.

(** The checks raise before any rule file is run when the session table has
    no row for the session. *)
Lemma checks_no_session_row W self rulefiles session_name st :
  SearchCursor W (dr_gdb_location self ++ "\GDB_REVSESSIONTABLE")
    (AddFieldDelimiters W (dr_gdb_location self ++ "\GDB_REVSESSIONTABLE") "SESSIONNAME"
     ++ " = '" ++ session_name ++ "'") = Returns [] ->
  exists e st',
    checks W self rulefiles session_name st = (Raises e, st') /\
    run_rel setup_event st st'.
Proof.
  intros Hcur. unfold checks. cbv zeta. rewrite Hcur.
  pose proof (setup_prep_dr_ws W self session_name st) as Hprep.
  unfold bind at 1. destruct (prep_dr_ws W self session_name st) as [[[]|e] st_a];
    cbn [snd] in Hprep; eexists _, _; (split; [reflexivity | exact Hprep]).
Qed.

Lemma load_rulefiles_single W rules st :
  Py.contains ".txt" rules = false ->
  load_rulefiles W rules st = (Returns (Rulefiles (Some [rules])), st).
Proof. intros Htxt. unfold load_rulefiles. now rewrite Htxt. Qed.

(** X11: a run on a single rule file whose session cannot be found in the session
    table: no rule file is run, the exception is reported as a message, and
    [runDR] returns without a value after the check-in of the licence. *)
Theorem runDR_no_session_row W self rules sess_keywd st :
  Py.contains ".txt" rules = false ->
  SearchCursor W (dr_gdb_location self ++ "\GDB_REVSESSIONTABLE")
    (AddFieldDelimiters W (dr_gdb_location self ++ "\GDB_REVSESSIONTABLE") "SESSIONNAME"
     ++ " = '" ++ sess_keywd ++ "'") = Returns [] ->
  fst (runDR W self rules sess_keywd st) = Returns None /\
  exists evs exc,
    events (snd (runDR W self rules sess_keywd st)) = (events st ++ evs)%list /\
    existsb is_batch_job evs = false /\
    In (AddMessage ("Exception during DRBot " ++ str_exn W exc)) evs /\
    In (CheckInExtension "datareviewer") evs.
Proof.
  intros Htxt Hcur. rewrite runDR_unfold.
  rewrite (load_rulefiles_single W rules _ Htxt). cbv zeta.
  match goal with
  | |- context [checks W self ?rf sess_keywd ?s] =>
      destruct (checks_no_session_row W self rf sess_keywd s Hcur)
        as (e & s' & Hchecks & ((ec & Ec & Fc) & _));
      rewrite Hchecks
  end.
  cbn [fst snd]. split; [reflexivity|].
  cbn [events with_events with_log] in *. rewrite Ec.
  eexists _, e. split; [rewrite <- !app_assoc; reflexivity|].
  split.
  - cbn [app existsb is_batch_job orb]. rewrite existsb_app.
    rewrite (setup_events_exclude ec Fc). reflexivity.
  - split.
    + cbn [app]. do 2 right. apply in_or_app. right. cbn. tauto.
    + cbn [app]. do 2 right. apply in_or_app. right. cbn. tauto.
Qed.

Lemma runDR_no_session_row_witness :
  fst (runDR no_session_world sample_bot "a.rbj" "log.txt" sample_state) = Returns None /\
  exists evs exc,
    events (snd (runDR no_session_world sample_bot "a.rbj" "log.txt" sample_state))
      = (events sample_state ++ evs)%list /\
    existsb is_batch_job evs = false /\
    In (AddMessage ("Exception during DRBot " ++ str_exn no_session_world exc)) evs /\
    In (CheckInExtension "datareviewer") evs.
Proof.
  apply (runDR_no_session_row no_session_world sample_bot "a.rbj" "log.txt" sample_state).
  - reflexivity.
  - reflexivity.
Defined.

(** ** A command-line run *)

Lemma runDR_missing_manifest W self rules sess_keywd st strerror :
  Py.contains ".txt" rules = true ->
  read_file W rules = Raises (IOError 2 strerror) ->
  runDR W self rules sess_keywd st =
  (Returns (Some 1%Z),
   with_events (with_log st ["Start time: " ++ start_time W])
     [CheckOutExtension "datareviewer";
      AddMessage ("Loading rule file(s) from " ++ rules ++ "...");
      OpenRead rules;
      AddMessage ("ERROR reading rules " ++ rules ++ ".");
      AddMessage strerror]).
Proof.
  intros Htxt Hread.
  rewrite runDR_unfold. unfold load_rulefiles. rewrite Htxt.
  unfold try_except. rewrite bind_emit, Hread.
  unfold lift_outcome at 1. unfold bind at 1.
  unfold set_msg. rewrite bind_emit. cbn [exc_item0_is Z.eqb Pos.eqb exc_item1].
  rewrite bind_emit. unfold ret. rewrite !with_events_app. reflexivity.
Qed.

(** X12: a command-line run with a rule file and a log file, on a manifest that
    does not exist: the 1 that [runDR] returns is not looked at, and the log,
    which holds the start time only, is still written to the log file; no
    mail is sent, as no recipient was given. *)
Theorem cli_missing_manifest_still_reports W self prog rules logfile def_rules st strerror :
  Py.contains ".txt" rules = true ->
  read_file W rules = Raises (IOError 2 strerror) ->
  logfile <> EmptyString ->
  open_write W logfile = None ->
  run_from_sysargs W self [prog; rules; logfile] def_rules st =
  (Returns tt,
   with_events (with_log st ["Start time: " ++ start_time W])
     [CheckOutExtension "datareviewer";
      AddMessage ("Loading rule file(s) from " ++ rules ++ "...");
      OpenRead rules;
      AddMessage ("ERROR reading rules " ++ rules ++ ".");
      AddMessage strerror;
      WriteFile logfile
        (map (fun logline => logline ++ NL)
             (tmp_log_list st ++ ["Start time: " ++ start_time W]))]).
Proof.
  intros Htxt Hread Hname Hw. unfold run_from_sysargs.
  cbn [List.length Nat.eqb Nat.ltb Nat.leb andb nth].
  unfold ret at 1. unfold bind at 1.
  unfold bind at 1.
  rewrite (runDR_missing_manifest W self rules _ st strerror Htxt Hread).
  unfold report_output.
  destruct logfile as [|c l]; [congruence|]. cbn [String.length Nat.ltb Nat.leb].
  unfold TmpLog.write_to_file, TmpLog.get_lines, call, bind, emit, ret.
  rewrite Hw. cbn [List.length Nat.ltb Nat.leb andb tmp_log_list with_events with_log].
  rewrite andb_false_r. rewrite with_events_app. reflexivity.
Qed.

Lemma cli_missing_manifest_still_reports_witness :
  run_from_sysargs (sample_world no_file (fun _ => None) [] None None) sample_bot
                   ["drbot.py"; "/jobs/weekly.txt"; "nulls.log"] "rules/sample1.rbj"
                   sample_state =
  (Returns tt,
   with_events (with_log sample_state ["Start time: 2017-05-04 10:00:00.000000"])
     [CheckOutExtension "datareviewer";
      AddMessage "Loading rule file(s) from /jobs/weekly.txt...";
      OpenRead "/jobs/weekly.txt";
      AddMessage "ERROR reading rules /jobs/weekly.txt.";
      AddMessage "No such file or directory";
      WriteFile "nulls.log" ["Start time: 2017-05-04 10:00:00.000000" ++ NL]]).
Proof.
  apply (cli_missing_manifest_still_reports
           (sample_world no_file (fun _ => None) [] None None) sample_bot
           "drbot.py" "/jobs/weekly.txt" "nulls.log" "rules/sample1.rbj" sample_state
           "No such file or directory").
  - reflexivity.
  - reflexivity.
  - discriminate.
  - reflexivity.
Defined.

(** ** The names taken from the arguments *)

Lemma split_aux_nonempty c cur s : Py.split_aux c cur s <> [].
Proof.
  revert cur; induction s as [|d s IH]; intros cur; cbn [Py.split_aux]; [discriminate|].
  destruct (Ascii.eqb d c); [discriminate | apply IH].
Qed.

Lemma last_cons_nonempty {A} (x : A) l d : l <> [] -> last (x :: l) d = last l d.
Proof. destruct l; [congruence | reflexivity]. Qed.

Lemma last_split_aux c cur s :
  last (Py.split_aux c cur s) EmptyString =
  match tail_after c s with
  | Some t => t
  | None => cur ++ s
  end.
Proof.
  revert cur; induction s as [|d s IH]; intros cur; cbn [Py.split_aux tail_after].
  - cbn. now rewrite append_nil_r.
  - destruct (Ascii.eqb d c).
    + rewrite last_cons_nonempty by apply split_aux_nonempty. rewrite IH.
      destruct (tail_after c s); reflexivity.
    + rewrite IH. destruct (tail_after c s); [reflexivity|].
      now rewrite append_assoc.
Qed.

Lemma rfind_aux_tail c i best s :
  Py.rfind_aux c i best s =
  match tail_after c s with
  | Some t => (i + Z.of_nat (String.length s) - 1 - Z.of_nat (String.length t))%Z
  | None => best
  end.
Proof.
  revert i best; induction s as [|d s IH]; intros i best;
    cbn [Py.rfind_aux tail_after String.length]; [reflexivity|].
  rewrite IH. destruct (tail_after c s) as [t|]; [lia|].
  destruct (Ascii.eqb d c); [lia | reflexivity].
Qed.

Lemma tail_after_suffix c s t :
  tail_after c s = Some t ->
  (exists p, s = p ++ String c t) /\ has_char c t = false.
Proof.
  revert t; induction s as [|d s IH]; intros t; cbn [tail_after]; [discriminate|].
  destruct (tail_after c s) as [t'|] eqn:Ht.
  - intros [= <-]. destruct (IH t' eq_refl) as [[p ->] Hno].
    split; [exists (String d p); reflexivity | exact Hno].
  - destruct (Ascii.eqb_spec d c) as [->|N]; [|discriminate].
    intros [= <-]. split; [exists EmptyString; reflexivity|].
    clear IH. induction s as [|x s IHs]; [reflexivity|].
    cbn [tail_after] in Ht. cbn [has_char].
    destruct (tail_after c s); [discriminate|].
    destruct (Ascii.eqb x c); [discriminate|]. now apply IHs.
Qed.

Lemma tail_after_none c s : tail_after c s = None -> has_char c s = false.
Proof.
  induction s as [|x s IH]; [reflexivity|]. cbn [tail_after has_char].
  destruct (tail_after c s); [discriminate|].
  destruct (Ascii.eqb x c); [discriminate|]. intros _. now apply IH.
Qed.

Lemma slice_from_length p r : Py.slice_from (String.length p) (p ++ r) = r.
Proof. induction p as [|c p IH]; [now destruct r | exact IH]. Qed.

(** X13: the two ways in which [run_from_sysargs] takes the last part of a path,
    [s[1 + s.rfind(c):]] for the session name and [s.split(c)[-1]] for the
    subject, give the same string; the path ends with it and it has no [c]
    in it. *)
Theorem last_part_of_path c s :
  Py.slice_from (Z.to_nat (1 + Py.rfind c s)) s = Py.last_item (Py.split c s) /\
  (exists p, s = p ++ Py.last_item (Py.split c s)) /\
  has_char c (Py.last_item (Py.split c s)) = false.
Proof.
  unfold Py.last_item, Py.split, Py.rfind.
  rewrite last_split_aux, rfind_aux_tail. cbn [append].
  destruct (tail_after c s) as [t|] eqn:Ht.
  - destruct (tail_after_suffix c s t Ht) as [[p ->] Hno].
    split; [|split; [exists (p ++ String c EmptyString); now rewrite append_assoc | exact Hno]].
    rewrite length_append. cbn [String.length].
    replace (Z.to_nat _) with (String.length (p ++ String c EmptyString)).
    + replace (p ++ String c t) with ((p ++ String c EmptyString) ++ t)
        by now rewrite append_assoc.
      apply slice_from_length.
    + rewrite length_append. cbn [String.length]. lia.
  - split; [reflexivity|].
    split; [exists EmptyString; reflexivity | now apply tail_after_none].
Qed.

(** ** The log and its file *)

(** X14: the two tests on the log agree: a line contains [s] exactly when the
    number of lines that contain [s] is not zero, and that number is added up
    over the parts of a log. *)
Theorem contains_line_with_count s lines more :
  TmpLog.contains_line_with s lines = negb (TmpLog.count_lines_with s lines =? 0)%nat /\
  TmpLog.count_lines_with s (lines ++ more) =
    (TmpLog.count_lines_with s lines + TmpLog.count_lines_with s more)%nat.
Proof.
  unfold TmpLog.contains_line_with, TmpLog.count_lines_with. split.
  - induction lines as [|l lines IH]; [reflexivity|]. cbn [existsb filter].
    destruct (Py.contains s l); [reflexivity | exact IH].
  - now rewrite filter_app, length_app.
Qed.

Lemma concat_lines_cons x xs :
  String.concat EmptyString (x :: xs) = x ++ String.concat EmptyString xs.
Proof.
  destruct xs as [|y ys]; [cbn; now rewrite append_nil_r | reflexivity].
Qed.

(** One line, its newline and the rest of the text. *)
Lemma splitlines_aux_line l cur rest :
  one_line l = true ->
  Py.splitlines_aux false cur (l ++ NL ++ rest) =
  (cur ++ l) :: Py.splitlines_aux false EmptyString rest.
Proof.
  revert cur; induction l as [|c l IH]; intros cur Hl.
  - cbn. now rewrite append_nil_r.
  - unfold one_line in Hl. cbn [all_chars] in Hl.
    apply andb_true_iff in Hl as [Hc Hl]. apply andb_true_iff in Hc as [Hlf Hcr].
    apply negb_true_iff in Hlf, Hcr.
    cbn [append Py.splitlines_aux]. rewrite Hlf, Hcr.
    rewrite (IH _ Hl). now rewrite append_assoc.
Qed.

(** X15: when no line of the log contains a line boundary, the text written by
    [write_to_file], split into lines, is the log again. *)
Theorem log_file_round_trip W filename st :
  open_write W filename = None ->
  Forall (fun l => one_line l = true) (tmp_log_list st) ->
  exists content,
    TmpLog.write_to_file W filename st =
      (Returns tt, with_events st [WriteFile filename content]) /\
    Py.splitlines (String.concat EmptyString content) = tmp_log_list st.
Proof.
  intros Hw Hlines. eexists. split.
  - unfold TmpLog.write_to_file, TmpLog.get_lines, call, bind, emit, ret.
    rewrite Hw. reflexivity.
  - unfold Py.splitlines.
    induction Hlines as [|l lines Hl _ IH]; [reflexivity|].
    cbn [map]. rewrite concat_lines_cons, append_assoc.
    rewrite (splitlines_aux_line l EmptyString _ Hl). cbn [append]. now rewrite IH.
Qed.

Lemma log_file_round_trip_witness :
  exists content,
    TmpLog.write_to_file (sample_world no_file (fun _ => None) [] None None) "log.txt"
                         (with_log sample_state ["Checking data.gdb"; EmptyString; "Done"]) =
      (Returns tt,
       with_events (with_log sample_state ["Checking data.gdb"; EmptyString; "Done"])
                   [WriteFile "log.txt" content]) /\
    Py.splitlines (String.concat EmptyString content) =
      tmp_log_list (with_log sample_state ["Checking data.gdb"; EmptyString; "Done"]).
Proof.
  apply (log_file_round_trip (sample_world no_file (fun _ => None) [] None None)
           "log.txt" (with_log sample_state ["Checking data.gdb"; EmptyString; "Done"])).
  - reflexivity.
  - repeat constructor.
Defined.

(** A total line ends with a newline of its own, so the file of a log with
    a total has one more line than the log. *)
Example total_line_is_two_lines :
  Py.splitlines (String.concat EmptyString
                   (map (fun logline => logline ++ NL) [total_line 2 "Invalid name"])) =
  ["Total 2 DRBot hits for Invalid name"; EmptyString].
Proof. reflexivity. Qed.

(** ** The summary and the marker *)

Lemma prefix_append a b s : prefix (a ++ b) s = true -> prefix a s = true.
Proof.
  revert s; induction a as [|x a IH]; intros s; [intros _; apply prefix_empty|].
  destruct s as [|y s]; cbn [append prefix]; [discriminate|].
  destruct (ascii_dec x y); [apply IH | discriminate].
Qed.

Lemma found_line_has_marker l : is_found_line l = true -> Py.contains found_marker l = true.
Proof.
  unfold is_found_line, found_marker. intros H.
  apply (prefix_append "Found" " ") in H.
  destruct l; cbn [Py.contains]; now rewrite H.
Qed.

Lemma filter_length_le {A} (f g : A -> bool) l :
  (forall x, f x = true -> g x = true) ->
  (List.length (filter f l) <= List.length (filter g l))%nat.
Proof.
  intros Hfg. induction l as [|x l IH]; [reflexivity|]. cbn [filter].
  destruct (f x) eqn:Hf.
  - rewrite (Hfg x Hf). cbn [List.length]. lia.
  - destruct (g x); cbn [List.length]; lia.
Qed.

(** X16: after the summary the number of lines with "Found", which is the number
    of issues in the subject of the mail, is at least the number of such
    lines before plus the number of rows; the log has no line with "Found"
    exactly when there was no row and no such line before, and then the
    summary is the line "No errors found." alone. *)
Theorem summary_marker_count rows log0 :
  (TmpLog.count_lines_with found_marker log0 + List.length rows <=
   TmpLog.count_lines_with found_marker (summarise_log rows log0))%nat /\
  (TmpLog.contains_line_with found_marker (summarise_log rows log0) = false <->
   rows = [] /\ TmpLog.contains_line_with found_marker log0 = false) /\
  (rows = [] /\ TmpLog.contains_line_with found_marker log0 = false ->
   summarise_log rows log0 = (log0 ++ ["No errors found."])%list).
Proof.
  rewrite summarise_log_lines.
  assert (List.length rows <=
          TmpLog.count_lines_with found_marker (summary_lines 0 EmptyString rows))%nat
    as Hrows.
  { unfold TmpLog.count_lines_with.
    rewrite <- (length_map found_line rows),
            <- (found_lines_of_summary rows 0 EmptyString).
    apply filter_length_le, found_line_has_marker. }
  assert (forall l, TmpLog.contains_line_with found_marker l
                    = negb (TmpLog.count_lines_with found_marker l =? 0)%nat) as Hc.
  { intros l. unfold TmpLog.contains_line_with, TmpLog.count_lines_with.
    induction l as [|x l IH]; [reflexivity|]. cbn [existsb filter].
    destruct (Py.contains found_marker x); [reflexivity | exact IH]. }
  assert (forall a b, TmpLog.count_lines_with found_marker (a ++ b)
                      = (TmpLog.count_lines_with found_marker a
                         + TmpLog.count_lines_with found_marker b)%nat) as Happ.
  { intros a b. unfold TmpLog.count_lines_with. now rewrite filter_app, length_app. }
  rewrite !Hc, !Happ.
  change (TmpLog.count_lines_with found_marker ["No errors found."]) with 0%nat.
  change (TmpLog.count_lines_with found_marker []) with 0%nat.
  remember (TmpLog.count_lines_with found_marker log0) as n0 eqn:E0.
  remember (TmpLog.count_lines_with found_marker (summary_lines 0 EmptyString rows))
    as n1 eqn:E1.
  destruct (n0 + n1 =? 0)%nat eqn:Hz.
  - apply Nat.eqb_eq in Hz.
    assert (rows = []) as Hnil
      by (destruct rows; [reflexivity | cbn [List.length] in Hrows; lia]).
    assert (n0 = 0%nat) as Hn0 by lia. assert (n1 = 0%nat) as Hn1 by lia.
    rewrite Hn0, Hn1, Hnil. cbn [Nat.add Nat.eqb negb List.length summary_lines nonempty
      String.eqb app].
    split; [lia|]. split; [tauto | reflexivity].
  - apply Nat.eqb_neq in Hz. rewrite !Nat.add_0_r.
    split; [lia|]. split.
    + apply Nat.eqb_neq in Hz. rewrite Hz. cbn [negb]. split; [discriminate|].
      intros [Hnil H0]. apply negb_false_iff, Nat.eqb_eq in H0.
      apply Nat.eqb_neq in Hz. rewrite Hnil in E1. cbn in E1. lia.
    + intros [Hnil H0]. apply negb_false_iff, Nat.eqb_eq in H0.
      rewrite Hnil in E1. cbn in E1. lia.
Qed.

(** ** A whole run on one rule file *)

(** X17: a run of [runDR] on a single rule file, with the workspace in place, the
    session created from the template session, the rule file accepted by the
    engine and the rows of the session read: the calls are exactly the ones
    below, in this order, and the log gets the start time, the two lines on
    the database and the workspace, the summary of the rows, "Done" and the
    duration. *)
Theorem runDR_single_rule_file W self rules sess_keywd st cur sess_obj_id rows :
  Py.contains ".txt" rules = false ->
  existsb (String.eqb (dr_gdb_location self)) (dirs st) = true ->
  CreateReviewerSession_Reviewer W (dr_gdb_location self) sess_keywd
    (Some "Session 1 : empty") = None ->
  SearchCursor W (dr_gdb_location self ++ "\GDB_REVSESSIONTABLE")
    (AddFieldDelimiters W (dr_gdb_location self ++ "\GDB_REVSESSIONTABLE") "SESSIONNAME"
     ++ " = '" ++ sess_keywd ++ "'") = Returns cur ->
  List.last (map Some cur) None = Some sess_obj_id ->
  ExecuteReviewerBatchJob_Reviewer W (dr_gdb_location self)
    ("Session " ++ Py.str_int sess_obj_id ++ " : " ++ sess_keywd) rules (self_db st) = None ->
  da_SearchCursor W (dr_gdb_location self ++ "/REVTABLEMAIN")
                  ("SESSIONID=" ++ Py.str_int sess_obj_id) = Returns rows ->
  runDR W self rules sess_keywd st =
  (Returns None,
   mkState (self_db st)
     (summarise_log rows
        (tmp_log_list st ++
         [("Start time: " ++ start_time W)%string;
          ("Checking " ++ self_db st)%string;
          ("Errors will be written to " ++ dr_gdb_location self)%string]) ++
      ["Done";
       (NL ++ "Total " ++ script_file W ++ " duration (h:mm:ss.dd): " ++
        Py.drop_last 3 (run_duration W))%string])%list
     (dirs st)
     (events st ++
      [CheckOutExtension "datareviewer";
       AddMessage ("Loading rule file(s) from " ++ rules ++ "...");
       AddMessage "Preparing Data Reviewer Session...";
       AddMessage ("    Database: " ++ dr_gdb_location self);
       CreateReviewerSession (dr_gdb_location self) sess_keywd (Some "Session 1 : empty");
       AddMessage ("  Created session:" ++ NL ++ "    " ++
                   "Session " ++ Py.str_int sess_obj_id ++ " : " ++ sess_keywd);
       AddMessage ("  Checking file: " ++ rules);
       Print ("Rules: " ++ rules);
       ExecuteReviewerBatchJob (dr_gdb_location self)
         ("Session " ++ Py.str_int sess_obj_id ++ " : " ++ sess_keywd) rules (self_db st);
       AddMessage ("Checks completed, summarising output." ++ NL ++ NL);
       CheckInExtension "datareviewer"])%list).
Proof.
  intros Htxt Hdir Hsession Hcur Hlast Hengine Hrows.
  rewrite runDR_unfold, (load_rulefiles_single W rules _ Htxt). cbv zeta.
  assert (forall s,
             dirs s = dirs st -> self_db s = self_db st ->
             checks W self (Some [rules]) sess_keywd s =
             (Returns tt,
              mkState (self_db st)
                (summarise_log rows
                   (tmp_log_list s ++
                    [("Checking " ++ self_db st)%string;
                     ("Errors will be written to " ++ dr_gdb_location self)%string]))
                (dirs st)
                (events s ++
                 [AddMessage "Preparing Data Reviewer Session...";
                  AddMessage ("    Database: " ++ dr_gdb_location self);
                  CreateReviewerSession (dr_gdb_location self) sess_keywd
                    (Some "Session 1 : empty");
                  AddMessage ("  Created session:" ++ NL ++ "    " ++
                              "Session " ++ Py.str_int sess_obj_id ++ " : " ++ sess_keywd);
                  AddMessage ("  Checking file: " ++ rules);
                  Print ("Rules: " ++ rules);
                  ExecuteReviewerBatchJob (dr_gdb_location self)
                    ("Session " ++ Py.str_int sess_obj_id ++ " : " ++ sess_keywd) rules
                    (self_db st);
                  AddMessage ("Checks completed, summarising output." ++ NL ++ NL)])%list))
    as Hchecks.
  { intros s Hds Hdb. unfold checks. cbv zeta. rewrite Hcur.
    unfold prep_dr_ws, set_msg, isdir, call, try_except, lift_outcome, get_db,
      TmpLog.log, bind, emit, ret.
    cbn [dirs self_db tmp_log_list events with_events with_log].
    rewrite Hds, Hdir. cbn [negb]. rewrite Hsession, Hlast.
    cbn [dirs self_db tmp_log_list events with_events with_log run_rulefiles].
    unfold set_msg, print, get_db, call, try_except, bind, emit, ret.
    cbn [dirs self_db tmp_log_list events with_events with_log].
    rewrite Hdb, Hengine.
    unfold summarise_dr_output, lift_outcome, TmpLog.get_lines, set_log, bind.
    rewrite Hrows. cbn [dirs self_db tmp_log_list events with_events with_log].
    rewrite Hds, Hdb, <- !app_assoc. reflexivity. }
  rewrite Hchecks by reflexivity.
  unfold with_log, with_events. cbn [dirs self_db tmp_log_list events].
  rewrite <- !app_assoc. reflexivity.
Qed.

Lemma runDR_single_rule_file_witness :
  runDR (sample_world no_file (fun _ => None) sample_rows None None) sample_bot
        "a.rbj" "log.txt" (initial_state ["/tmp/dr.gdb"]) =
  (Returns None,
   mkState "C:\arcgis\test\DataReviewer\testdata.gdb"
     (summarise_log sample_rows
        [("Start time: 2017-05-04 10:00:00.000000")%string;
         ("Checking C:\arcgis\test\DataReviewer\testdata.gdb")%string;
         ("Errors will be written to /tmp/dr.gdb")%string] ++
      ["Done";
       (NL ++ "Total drbot.py duration (h:mm:ss.dd): 0:00:12.345")%string])%list
     ["/tmp/dr.gdb"]
     [CheckOutExtension "datareviewer";
      AddMessage "Loading rule file(s) from a.rbj...";
      AddMessage "Preparing Data Reviewer Session...";
      AddMessage "    Database: /tmp/dr.gdb";
      CreateReviewerSession "/tmp/dr.gdb" "log.txt" (Some "Session 1 : empty");
      AddMessage ("  Created session:" ++ NL ++ "    Session 1 : log.txt");
      AddMessage "  Checking file: a.rbj";
      Print "Rules: a.rbj";
      ExecuteReviewerBatchJob "/tmp/dr.gdb" "Session 1 : log.txt" "a.rbj"
        "C:\arcgis\test\DataReviewer\testdata.gdb";
      AddMessage ("Checks completed, summarising output." ++ NL ++ NL);
      CheckInExtension "datareviewer"]).
Proof.
  apply (runDR_single_rule_file
           (sample_world no_file (fun _ => None) sample_rows None None) sample_bot
           "a.rbj" "log.txt" (initial_state ["/tmp/dr.gdb"]) [1%Z] 1 sample_rows);
    reflexivity.
Defined.

(** [report_output] changes nothing but the list of calls. *)
Lemma report_output_only_calls W logfile mails subj always_send_mail st :
  exists o evs,
    report_output W logfile mails subj always_send_mail st = (o, with_events st evs).
Proof.
  unfold report_output.
  set (mails' := match mails with
                 | [m] => if String.eqb m EmptyString then [] else mails
                 | _ => mails
                 end).
  assert (forall s, tmp_log_list s = tmp_log_list st ->
            exists o evs,
              (lines <- TmpLog.get_lines ;;
               (if (if negb always_send_mail && (0 <? List.length mails')%nat
                    then if TmpLog.contains_line_with found_marker lines
                         then true else always_send_mail
                    else always_send_mail) && (0 <? List.length mails')%nat
                then TmpLog.send_email W email_sender mails' ("DRBot Run, " ++ subj)
                       found_marker
                else ret tt)) s = (o, with_events s evs)) as Hmail.
  { intros s _. unfold TmpLog.get_lines. unfold bind at 1.
    destruct (_ && (0 <? List.length mails')%nat).
    - destruct (send_email_connects W email_sender mails' ("DRBot Run, " ++ subj)
                  found_marker s) as (evs & -> & _). eauto.
    - exists (Returns tt), []. unfold ret. now rewrite with_events_nil. }
  destruct (0 <? String.length logfile)%nat.
  - unfold TmpLog.write_to_file, TmpLog.get_lines, call. unfold bind at 1 2 3.
    cbn [emit]. destruct (open_write W logfile) as [e|].
    + unfold raise. eauto.
    + unfold ret at 1.
      match goal with
      | |- context [with_events st ?ev] =>
          destruct (Hmail (with_events st ev) eq_refl) as (o & evs & H)
      end.
      unfold bind in H. unfold TmpLog.get_lines in *. unfold bind.
      rewrite H, with_events_app. eauto.
  - unfold ret at 1. unfold bind at 1.
    destruct (Hmail st eq_refl) as (o & evs & H). rewrite H. eauto.
Qed.

(** X18: a command-line run with a database argument: the database setting of
    the object is that argument when the run ends, whether it returns or
    raises, and nothing is removed from the log. *)
Theorem cli_database_argument W self prog rules logfile db more def_rules st :
  self_db (snd (run_from_sysargs W self (prog :: rules :: logfile :: db :: more)
                                 def_rules st)) = db /\
  exists lines,
    tmp_log_list (snd (run_from_sysargs W self (prog :: rules :: logfile :: db :: more)
                                        def_rules st)) =
    (tmp_log_list st ++ lines)%list.
Proof.
  assert (exists o st',
             run_from_sysargs W self (prog :: rules :: logfile :: db :: more) def_rules st
             = (o, st') /\
             self_db st' = db /\
             exists lines, tmp_log_list st' = (tmp_log_list st ++ lines)%list)
    as (o & st' & -> & Hdb & Hlog); [|split; assumption].
  unfold run_from_sysargs.
  cbn [List.length Nat.eqb Nat.ltb Nat.leb andb nth].
  unfold set_db at 1. unfold bind at 1.
  set (st0 := mkState db (tmp_log_list st) (dirs st) (events st)).
  set (sess := Py.slice_from (Z.to_nat (1 + Py.rfind Py.BACKSLASH logfile)) logfile).
  destruct (runDR_run_rel W self rules sess st0) as (_ & (lines & L) & _ & B).
  unfold bind.
  destruct (runDR W self rules sess st0) as [[r|e] st1]; cbn [snd] in *.
  - match goal with
    | |- context [report_output W logfile ?m ?subj true st1] =>
        destruct (report_output_only_calls W logfile m subj true st1) as (o & evs & ->)
    end.
    eexists _, _. split; [reflexivity|].
    cbn [self_db tmp_log_list with_events]. split; [exact B | eauto].
  - eexists _, _. split; [reflexivity|]. split; [exact B | eauto].
Qed.
